(** * Temporal-difference agents of PyPi: a shallow embedding

    This development embeds [PyPi/algorithms/td.py] (the classes [TD],
    [QLearning], [DoubleQLearning], [WeightedQLearning] and [SARSA]) and
    [PyPi/utils/callbacks.py] (the class [CollectMaxQ]) and states the
    behaviour of their constructors, of [fit] and of the [_next_q]
    resolvers.

    Conventions of the embedding:
    - numpy's float64 scalars are idealised as real numbers ([R]);
    - a Python exception is a value [Raise e] of the type [result];
    - a method is a computation in the monad [M], which threads the state
      of the objects the agent only holds references to (the learning-rate
      schedules, the random source) together with the record of the calls
      made on the external collaborators;
    - the instance dictionary of an agent is a record of optional fields:
      an attribute that was never assigned is [None] and reading it raises
      [AttributeError];
    - a numpy array subscripted with a Python list takes the list as an
      array of indices along its first axis: the subscript is refused
      ([IndexError]) when the list does not make an array of integers
      within the bounds, and selects whole rows otherwise. *)

From Stdlib Require Import String.
From Stdlib Require Import Reals Lra List Arith ZArith Lia Bool.
Import ListNotations.

Local Open Scope R_scope.

(** ** Exceptions and results *)

Inductive exn : Type :=
| AssertionError
| AttributeError
| IndexError
| KeyError
| TypeError
| ValueError
| NotImplementedError.

Inductive result (A : Type) : Type :=
| Ok (a : A)
| Raise (e : exn).

Arguments Ok {A} a.
Arguments Raise {A} e.

(** ** External collaborators

    The approximator, the learning-rate schedule, the policy and the
    random source are not part of the two source files; the code only
    calls them.  Their interface is a class. *)

Class Collaborators : Type := {
  State : Type;
  Action : Type;
  (** what numpy finds in a state or in an action that is used as an
      index: the integer the array holds, or nothing when the array is
      not of an integer type *)
  state_index : State -> option Z;
  action_index : Action -> option Z;
  (** one trainable regressor: [predict] and [fit] *)
  Model : Type;
  FitParams : Type;
  Shape : Type;
  predict : Model -> State * Action -> R;
  model_fit : Model -> State * Action -> R -> FitParams -> Model;
  model_shape : Model -> Shape;
  (** the number of rows and of columns of an array of a given shape *)
  shape_dims : Shape -> nat * nat;
  (** a learning-rate schedule: a stateful callable *)
  Schedule : Type;
  rate : Schedule -> State * Action -> R * Schedule;
  (** the policy, and the random source behind [np.random] *)
  Policy : Type;
  Rng : Type;
  policy_draw : Policy -> Model -> State -> Rng -> Action * Rng;
  uniform : Rng -> R * Rng;
  normal : Rng -> list (list R) -> list (list R) -> list (list R) * Rng
}.

Section TD.

Context {C : Collaborators}.

Definition SA : Type := (State * Action)%type.

(** ** The world outside the agent *)

(** A call made on a collaborator.  The tag of [CPredict] and [CFit] is
    [None] for [self.approximator] itself and [Some i] for
    [self.approximator[i]]. *)
Inductive Call : Type :=
| CPredict (i : option Z) (sa : SA)
| CFit (i : option Z) (sa : SA) (q : R)
| CRate (l : nat) (sa : SA)
| CUniform (u : R).

(** Learning-rate schedules are objects held by reference: [schedules]
    maps an address to the state of the schedule stored there and
    [next_loc] is the first unused address.  [calls] lists the calls made
    so far, newest first. *)
Record World : Type := {
  schedules : nat -> Schedule;
  next_loc : nat;
  rng : Rng;
  calls : list Call
}.

Definition M (A : Type) : Type := World -> result (A * World).

Definition ret {A} (a : A) : M A := fun w => Ok (a, w).

Definition bind {A B} (c : M A) (k : A -> M B) : M B :=
  fun w => match c w with
           | Ok (a, w') => k a w'
           | Raise e => Raise e
           end.

Definition raise {A} (e : exn) : M A := fun _ => Raise e.

Definition lift {A} (r : result A) : M A :=
  fun w => match r with Ok a => Ok (a, w) | Raise e => Raise e end.

Notation "x <- c ;; k" := (bind c (fun x => k))
  (at level 61, c at next level, right associativity).
Notation "' p <- c ;; k" := (bind c (fun x => let p := x in k))
  (at level 61, p pattern, c at next level, right associativity).
Notation "c ;; k" := (bind c (fun _ => k))
  (at level 61, right associativity).

(** [assert b] *)
Definition assert (b : bool) : M unit :=
  if b then ret tt else raise AssertionError.

(** Reading an attribute of an instance. *)
Definition getattr {A} (field : option A) : M A :=
  match field with
  | Some a => ret a
  | None => raise AttributeError
  end.

(** Reading a key of a dictionary. *)
Definition getitem {A} (entry : option A) : M A :=
  match entry with
  | Some a => ret a
  | None => raise KeyError
  end.

Definition log (c : Call) (w : World) : World :=
  {| schedules := schedules w; next_loc := next_loc w; rng := rng w;
     calls := c :: calls w |}.

(** [m.predict(sa)] and [m.fit(sa, q, **fit_params)] on a regressor *)
Definition call_predict (i : option Z) (m : Model) (sa : SA) : M R :=
  fun w => Ok (predict m sa, log (CPredict i sa) w).

Definition call_fit (i : option Z) (m : Model) (sa : SA) (q : R)
    (fp : FitParams) : M Model :=
  fun w => Ok (model_fit m sa q fp, log (CFit i sa q) w).

(** [lr(sa)] on the schedule stored at address [l]: the schedule returns
    a step size and advances its own state in place. *)
Definition call_rate (l : nat) (sa : SA) : M R :=
  fun w =>
    let (alpha, s') := rate (schedules w l) sa in
    Ok (alpha,
        {| schedules := fun l' => if (l' =? l)%nat then s' else schedules w l';
           next_loc := next_loc w; rng := rng w;
           calls := CRate l sa :: calls w |}).

(** [deepcopy(lr)]: a new object with the same state at a fresh address *)
Definition deepcopy (l : nat) : M nat :=
  fun w =>
    let l' := next_loc w in
    Ok (l',
        {| schedules := fun k => if (k =? l')%nat then schedules w l
                                 else schedules w k;
           next_loc := S l'; rng := rng w; calls := calls w |}).

(** [np.random.uniform()] *)
Definition call_uniform : M R :=
  fun w =>
    let (u, g) := uniform (rng w) in
    Ok (u, {| schedules := schedules w; next_loc := next_loc w; rng := g;
              calls := CUniform u :: calls w |}).

(** [np.random.normal(loc, scale)] on two matrices of the same shape *)
Definition call_normal (means sigmas : list (list R)) : M (list (list R)) :=
  fun w =>
    let (x, g) := normal (rng w) means sigmas in
    Ok (x, {| schedules := schedules w; next_loc := next_loc w; rng := g;
              calls := calls w |}).

(** ** Data of the agent *)

(** One transition of a dataset; the trailing [info] entry is never read. *)
Record Transition : Type := {
  state : State;
  action : Action;
  reward : R;
  next_state : State;
  absorbing : bool
}.

Record ActionSpace : Type := {
  values : list Action;
  size : nat
}.

Record MDPInfo : Type := {
  gamma : R;
  action_space : ActionSpace
}.

(** A Python number: an [int] or a [float]. *)
Inductive Number : Type :=
| PyInt (n : Z)
| PyFloat (x : R).

Definition number_value (p : Number) : R :=
  match p with
  | PyInt n => IZR n
  | PyFloat x => x
  end.

(** [params]: the keyword dictionary given to a constructor.  An entry
    that is [None] is a key that is absent. *)
Record AlgorithmParams : Type := {
  p_learning_rate : option nat
}.

Record Params : Type := {
  algorithm_params : option AlgorithmParams;
  fit_params : option FitParams;
  p_mdp_info : MDPInfo;
  p_sampling : option bool;
  p_precision : option Number
}.

(** The attribute [learning_rate] holds one schedule (its address) after
    [TD.__init__] and a list after [DoubleQLearning.__init__]. *)
#[warnings="-register-all"]
Inductive LearningRate : Type :=
| LRone (l : nat)
| LRlist (ls : list LearningRate).

(** A two-dimensional numpy array of floats of a given shape; [tdata]
    gives the entry of a row and a column (only the entries within the
    shape are part of the array). *)
Record Table : Type := {
  tshape : Shape;
  tdata : nat -> nat -> R
}.

Definition np_zeros (sh : Shape) : Table :=
  {| tshape := sh; tdata := fun _ _ => 0 |}.

Definition np_ones (sh : Shape) : Table :=
  {| tshape := sh; tdata := fun _ _ => 1 |}.

Definition np_scale (t : Table) (c : R) : Table :=
  {| tshape := tshape t; tdata := fun i j => tdata t i j * c |}.

Definition rows (t : Table) : nat := fst (shape_dims (tshape t)).
Definition cols (t : Table) : nat := snd (shape_dims (tshape t)).

(** The instance dictionary of an agent.  [Apx] is the kind of
    approximator the agent was given: one [Model], or a list of models
    (an ensemble) for [DoubleQLearning]. *)
Record Agent (Apx : Type) : Type := {
  name : option string;
  approximator : option Apx;
  policy : option Policy;
  mdp_info : option MDPInfo;
  params : option Params;
  learning_rate : option LearningRate;
  _next_action : option Action;
  sampling : option bool;
  precision : option Number;
  _n_updates : option Table;
  _sigma : option Table;
  _Q2 : option Table;
  _weights_var : option Table
}.

Arguments name {Apx} _.
Arguments approximator {Apx} _.
Arguments policy {Apx} _.
Arguments mdp_info {Apx} _.
Arguments params {Apx} _.
Arguments learning_rate {Apx} _.
Arguments _next_action {Apx} _.
Arguments sampling {Apx} _.
Arguments precision {Apx} _.
Arguments _n_updates {Apx} _.
Arguments _sigma {Apx} _.
Arguments _Q2 {Apx} _.
Arguments _weights_var {Apx} _.

(** The object [__init__] receives: no attribute assigned yet. *)
Definition fresh (Apx : Type) : Agent Apx :=
  {| name := None; approximator := None; policy := None; mdp_info := None;
     params := None; learning_rate := None; _next_action := None;
     sampling := None; precision := None; _n_updates := None;
     _sigma := None; _Q2 := None; _weights_var := None |}.

(** Attribute assignment [self.f = v], one setter per attribute. *)
Definition set_name {Apx} (self : Agent Apx) (v : option string)
    : Agent Apx :=
  {| name := v; approximator := approximator self; policy := policy self;
     mdp_info := mdp_info self; params := params self;
     learning_rate := learning_rate self; _next_action := _next_action self;
     sampling := sampling self; precision := precision self;
     _n_updates := _n_updates self; _sigma := _sigma self; _Q2 := _Q2 self;
     _weights_var := _weights_var self |}.

Definition set_approximator {Apx} (self : Agent Apx) (v : option Apx)
    : Agent Apx :=
  {| name := name self; approximator := v; policy := policy self;
     mdp_info := mdp_info self; params := params self;
     learning_rate := learning_rate self; _next_action := _next_action self;
     sampling := sampling self; precision := precision self;
     _n_updates := _n_updates self; _sigma := _sigma self; _Q2 := _Q2 self;
     _weights_var := _weights_var self |}.

Definition set_policy {Apx} (self : Agent Apx) (v : option Policy)
    : Agent Apx :=
  {| name := name self; approximator := approximator self; policy := v;
     mdp_info := mdp_info self; params := params self;
     learning_rate := learning_rate self; _next_action := _next_action self;
     sampling := sampling self; precision := precision self;
     _n_updates := _n_updates self; _sigma := _sigma self; _Q2 := _Q2 self;
     _weights_var := _weights_var self |}.

Definition set_mdp_info {Apx} (self : Agent Apx) (v : option MDPInfo)
    : Agent Apx :=
  {| name := name self; approximator := approximator self;
     policy := policy self; mdp_info := v; params := params self;
     learning_rate := learning_rate self; _next_action := _next_action self;
     sampling := sampling self; precision := precision self;
     _n_updates := _n_updates self; _sigma := _sigma self; _Q2 := _Q2 self;
     _weights_var := _weights_var self |}.

Definition set_params {Apx} (self : Agent Apx) (v : option Params)
    : Agent Apx :=
  {| name := name self; approximator := approximator self;
     policy := policy self; mdp_info := mdp_info self; params := v;
     learning_rate := learning_rate self; _next_action := _next_action self;
     sampling := sampling self; precision := precision self;
     _n_updates := _n_updates self; _sigma := _sigma self; _Q2 := _Q2 self;
     _weights_var := _weights_var self |}.

Definition set_learning_rate {Apx} (self : Agent Apx) (v : option LearningRate)
    : Agent Apx :=
  {| name := name self; approximator := approximator self;
     policy := policy self; mdp_info := mdp_info self; params := params self;
     learning_rate := v; _next_action := _next_action self;
     sampling := sampling self; precision := precision self;
     _n_updates := _n_updates self; _sigma := _sigma self; _Q2 := _Q2 self;
     _weights_var := _weights_var self |}.

Definition set_next_action {Apx} (self : Agent Apx) (v : option Action)
    : Agent Apx :=
  {| name := name self; approximator := approximator self;
     policy := policy self; mdp_info := mdp_info self; params := params self;
     learning_rate := learning_rate self; _next_action := v;
     sampling := sampling self; precision := precision self;
     _n_updates := _n_updates self; _sigma := _sigma self; _Q2 := _Q2 self;
     _weights_var := _weights_var self |}.

Definition set_sampling {Apx} (self : Agent Apx) (v : option bool)
    : Agent Apx :=
  {| name := name self; approximator := approximator self;
     policy := policy self; mdp_info := mdp_info self; params := params self;
     learning_rate := learning_rate self; _next_action := _next_action self;
     sampling := v; precision := precision self;
     _n_updates := _n_updates self; _sigma := _sigma self; _Q2 := _Q2 self;
     _weights_var := _weights_var self |}.

Definition set_precision {Apx} (self : Agent Apx) (v : option Number)
    : Agent Apx :=
  {| name := name self; approximator := approximator self;
     policy := policy self; mdp_info := mdp_info self; params := params self;
     learning_rate := learning_rate self; _next_action := _next_action self;
     sampling := sampling self; precision := v;
     _n_updates := _n_updates self; _sigma := _sigma self; _Q2 := _Q2 self;
     _weights_var := _weights_var self |}.

Definition set_n_updates {Apx} (self : Agent Apx) (v : option Table)
    : Agent Apx :=
  {| name := name self; approximator := approximator self;
     policy := policy self; mdp_info := mdp_info self; params := params self;
     learning_rate := learning_rate self; _next_action := _next_action self;
     sampling := sampling self; precision := precision self; _n_updates := v;
     _sigma := _sigma self; _Q2 := _Q2 self;
     _weights_var := _weights_var self |}.

Definition set_sigma {Apx} (self : Agent Apx) (v : option Table)
    : Agent Apx :=
  {| name := name self; approximator := approximator self;
     policy := policy self; mdp_info := mdp_info self; params := params self;
     learning_rate := learning_rate self; _next_action := _next_action self;
     sampling := sampling self; precision := precision self;
     _n_updates := _n_updates self; _sigma := v; _Q2 := _Q2 self;
     _weights_var := _weights_var self |}.

Definition set_Q2 {Apx} (self : Agent Apx) (v : option Table)
    : Agent Apx :=
  {| name := name self; approximator := approximator self;
     policy := policy self; mdp_info := mdp_info self; params := params self;
     learning_rate := learning_rate self; _next_action := _next_action self;
     sampling := sampling self; precision := precision self;
     _n_updates := _n_updates self; _sigma := _sigma self; _Q2 := v;
     _weights_var := _weights_var self |}.

Definition set_weights_var {Apx} (self : Agent Apx) (v : option Table)
    : Agent Apx :=
  {| name := name self; approximator := approximator self;
     policy := policy self; mdp_info := mdp_info self; params := params self;
     learning_rate := learning_rate self; _next_action := _next_action self;
     sampling := sampling self; precision := precision self;
     _n_updates := _n_updates self; _sigma := _sigma self; _Q2 := _Q2 self;
     _weights_var := v |}.

(** ** Sequences and arrays *)

(** [l[i]] on a Python sequence: a negative index counts from the end. *)
Definition py_index {A} (l : list A) (i : Z) : result A :=
  let n := Z.of_nat (length l) in
  let j := if (i <? 0)%Z then (n + i)%Z else i in
  if ((0 <=? j) && (j <? n))%Z then
    match nth_error l (Z.to_nat j) with
    | Some a => Ok a
    | None => Raise IndexError
    end
  else Raise IndexError.

Fixpoint replace_nth {A} (l : list A) (n : nat) (v : A) : list A :=
  match l, n with
  | [], _ => []
  | _ :: l', O => v :: l'
  | a :: l', S n' => a :: replace_nth l' n' v
  end.

(** The sequence [l] after its item [i] was changed in place to [v];
    only used after [py_index l i] succeeded. *)
Definition py_update {A} (l : list A) (i : Z) (v : A) : list A :=
  let n := Z.of_nat (length l) in
  let j := if (i <? 0)%Z then (n + i)%Z else i in
  replace_nth l (Z.to_nat j) v.

(** [row[i] = v] on a numpy row *)
Definition set_at (row : list R) (i : nat) (v : R) : result (list R) :=
  if (i <? length row)%nat then Ok (replace_nth row i v) else Raise IndexError.

(** [np.argmax] of one row: the first position of the largest entry *)
Fixpoint argmax_from (best : nat) (bv : R) (i : nat) (row : list R) : nat :=
  match row with
  | [] => best
  | x :: row' =>
      if Rlt_dec bv x then argmax_from i x (S i) row'
      else argmax_from best bv (S i) row'
  end.

Definition np_argmax (row : list R) : result nat :=
  match row with
  | [] => Raise ValueError
  | x :: row' => Ok (argmax_from 0 x 1 row')
  end.

Fixpoint np_argmax_rows (rows : list (list R)) : result (list nat) :=
  match rows with
  | [] => Ok []
  | r :: rows' =>
      match np_argmax r, np_argmax_rows rows' with
      | Ok i, Ok js => Ok (i :: js)
      | Raise e, _ => Raise e
      | _, Raise e => Raise e
      end
  end.

(** [np.unique(l, return_counts=True)]: the distinct values of [l] in
    increasing order, each with the number of times it occurs. *)
Fixpoint insert_count (x : nat) (acc : list (nat * nat)) : list (nat * nat) :=
  match acc with
  | [] => [(x, 1%nat)]
  | (y, c) :: acc' =>
      if (x <? y)%nat then (x, 1%nat) :: acc
      else if (x =? y)%nat then (y, S c) :: acc'
      else (y, c) :: insert_count x acc'
  end.

Definition np_unique (l : list nat) : list (nat * nat) :=
  fold_left (fun acc x => insert_count x acc) l [].

(** [np.dot] of two vectors: the lengths have to agree *)
Definition np_dot (u v : list R) : result R :=
  if (length u =? length v)%nat
  then Ok (fold_right Rplus 0 (map (fun p => fst p * snd p) (combine u v)))
  else Raise ValueError.

(** [np.clip(x, lo, np.inf)] *)
Definition np_clip_inf (x lo : R) : R := Rmax lo x.

(** [np.repeat(row, n, 0)] on a matrix of one row: the number of
    repetitions has to be an integer ([TypeError] for a float) that is not
    negative. *)
Definition np_repeat (row : list R) (n : Number) : result (list (list R)) :=
  match n with
  | PyInt k =>
      if (k <? 0)%Z then Raise ValueError else Ok (repeat row (Z.to_nat k))
  | PyFloat _ => Raise TypeError
  end.

(** An operation on two arrays entry by entry: the shapes have to agree. *)
Definition np_map2 (f : R -> R -> R) (u v : list R) : result (list R) :=
  if (length u =? length v)%nat
  then Ok (map (fun p => f (fst p) (snd p)) (combine u v))
  else Raise ValueError.

(** The truth value [if] takes of an array of booleans: that of its
    entry when it has exactly one; an array of several entries has none
    ([ValueError]); an empty array counts as false. *)
Definition np_truth (v : list bool) : result bool :=
  match v with
  | [] => Ok false
  | [b] => Ok b
  | _ => Raise ValueError
  end.

(** [row[i] = v] where [v] is an array: one slot takes an array of one
    entry only. *)
Definition set_at_array (row : list R) (i : nat) (v : list R)
    : result (list R) :=
  if (i <? length row)%nat then
    match v with
    | [x] => Ok (replace_nth row i x)
    | _ => Raise ValueError
    end
  else Raise IndexError.

(** Sequencing of two steps that may raise, and of one step per item
    of a list *)
Definition and_then {A B} (r : result A) (k : A -> result B) : result B :=
  match r with
  | Ok a => k a
  | Raise e => Raise e
  end.

Fixpoint mapR {A B} (f : A -> result B) (l : list A) : result (list B) :=
  match l with
  | [] => Ok []
  | a :: l' =>
      and_then (f a) (fun b => and_then (mapR f l') (fun bs => Ok (b :: bs)))
  end.

(** ** Subscripts of a two-dimensional array *)

(** An integer used as an index along an axis of length [n]: a negative
    one counts from the end. *)
Definition np_axis (n : nat) (i : Z) : result nat :=
  let j := if (i <? 0)%Z then (Z.of_nat n + i)%Z else i in
  if ((0 <=? j) && (j <? Z.of_nat n))%Z then Ok (Z.to_nat j)
  else Raise IndexError.

(** An array-like used as an index has to be of an integer type. *)
Definition as_index (x : option Z) : result Z :=
  match x with
  | Some z => Ok z
  | None => Raise IndexError
  end.

(** The array of indices that a Python list of array-likes makes *)
Definition index_array (items : list (option Z)) : result (list Z) :=
  mapR as_index items.

(** The rows that [t[items]] selects, [items] being a Python list: one
    row of [t] per item, in the order of the list. *)
Definition select_rows (t : Table) (items : list (option Z))
    : result (list nat) :=
  and_then (index_array items) (mapR (np_axis (rows t))).

(** The entries of the rows [rs], row after row *)
Definition cells (t : Table) (rs : list nat) : list (nat * nat) :=
  flat_map (fun i => map (fun j => (i, j)) (seq 0 (cols t))) rs.

(** [t[items]], [items] a Python list *)
Definition take_rows (t : Table) (items : list (option Z))
    : result (list R) :=
  and_then (select_rows t items)
    (fun rs => Ok (map (fun c => tdata t (fst c) (snd c)) (cells t rs))).

(** The array [t] after the value [v] was stored at the entry [c] *)
Definition store (t : Table) (c : nat * nat) (v : R) : Table :=
  {| tshape := tshape t;
     tdata := fun i j =>
       if ((i =? fst c) && (j =? snd c))%nat then v else tdata t i j |}.

(** [t[items] = v], [items] a Python list and [v] an array with one
    value per selected entry: the values are stored in order. *)
Definition put_rows (t : Table) (items : list (option Z)) (v : list R)
    : result Table :=
  and_then (select_rows t items)
    (fun rs =>
       if (length v =? length (cells t rs))%nat
       then Ok (fold_left (fun t' cv => store t' (fst cv) (snd cv))
                  (combine (cells t rs) v) t)
       else Raise ValueError).

(** [t[items, j]], [items] a Python list: the list is an array of
    indices along the first axis and [j] an index along the second; one
    entry is selected per item of the list. *)
Definition take_entries (t : Table) (items : list (option Z))
    (j : option Z) : result (list R) :=
  and_then (index_array items) (fun idx =>
  and_then (as_index j) (fun c =>
  and_then (mapR (np_axis (rows t)) idx) (fun rs =>
  and_then (np_axis (cols t) c) (fun c =>
  Ok (map (fun i => tdata t i c) rs))))).

(** One computation per item of a list, in order *)
Fixpoint mapM {A B} (f : A -> M B) (l : list A) : M (list B) :=
  match l with
  | [] => ret []
  | a :: l' => b <- f a ;; bs <- mapM f l' ;; ret (b :: bs)
  end.

(** ** Helpers of [PyPi.utils.dataset] *)

(** Modelled from the spec: [parse_dataset] is imported from
    [PyPi/utils/dataset.py], which is not among the sources.  It splits a
    dataset into its columns; the agents only ever apply it to the
    one-element list [[dataset[-1]]], for which the columns are the
    fields of that transition (the last column is discarded by every
    caller). *)
Definition parse_dataset (dataset : list Transition)
    : result (State * Action * R * State * bool) :=
  match dataset with
  | [t] => Ok (state t, action t, reward t, next_state t, absorbing t)
  | _ => Raise ValueError
  end.

(** The better of a running best and one more candidate; a later
    candidate wins only when strictly larger. *)
Definition better (b : R * Action) (c : R * Action) : R * Action :=
  if Rlt_dec (fst b) (fst c) then c else b.

(** Modelled from the spec: [max_QA] is imported from
    [PyPi/utils/dataset.py], which is not among the sources.  Following
    the spec (section 4.2 and 4.4) it queries the given regressor once per
    action at the given state and returns the largest predicted value
    together with an action that attains it.  The flag [absorbing] is
    [False] at every call in the sources.  [i] is the tag under which the
    predictions are recorded. *)
Definition max_QA (i : option Z) (s : State) (absorbing_ : bool)
    (m : Model) (actions : list Action) : M (R * Action) :=
  qs <- mapM (fun a => call_predict i m (s, a)) actions ;;
  match combine qs actions with
  | [] => raise ValueError
  | c :: cs => ret (fold_left better cs c)
  end.

(** ** Constructors *)

(** Modelled from the spec: [Agent.__init__] lives in
    [PyPi/algorithms/agent.py], which is not among the sources.
    Following the data model of the spec (section 3) the base constructor
    stores the approximator and the policy it receives, the MDP
    description and the keyword dictionary. *)
Definition Agent_init {Apx} (self : Agent Apx) (approximator_ : Apx)
    (policy_ : Policy) (params_ : Params) : M (Agent Apx) :=
  let self := set_approximator self (Some approximator_) in
  let self := set_policy self (Some policy_) in
  let self := set_mdp_info self (Some (p_mdp_info params_)) in
  let self := set_params self (Some params_) in
  ret self.

(** [TD.__init__]: [pop] removes the schedule from [algorithm_params]. *)
Definition TD_init {Apx} (self : Agent Apx) (approximator_ : Apx)
    (policy_ : Policy) (params_ : Params) : M (Agent Apx) :=
  ap <- getitem (algorithm_params params_) ;;
  l <- getitem (p_learning_rate ap) ;;
  let self := set_learning_rate self (Some (LRone l)) in
  let params_ :=
    {| algorithm_params := Some {| p_learning_rate := None |};
       fit_params := fit_params params_;
       p_mdp_info := p_mdp_info params_;
       p_sampling := p_sampling params_;
       p_precision := p_precision params_ |} in
  Agent_init self approximator_ policy_ params_.

Definition QLearning_init (self : Agent Model) (approximator_ : Model)
    (policy_ : Policy) (params_ : Params) : M (Agent Model) :=
  let self := set_name self (Some "QLearning"%string) in
  TD_init self approximator_ policy_ params_.

Definition SARSA_init (self : Agent Model) (approximator_ : Model)
    (policy_ : Policy) (params_ : Params) : M (Agent Model) :=
  let self := set_name self (Some "SARSA"%string) in
  TD_init self approximator_ policy_ params_.

(** [deepcopy] of whatever the attribute [learning_rate] holds *)
Fixpoint deepcopy_learning_rate (lr : LearningRate) : M LearningRate :=
  match lr with
  | LRone l => c <- deepcopy l ;; ret (LRone c)
  | LRlist ls =>
      cs <- (fix copies (ls : list LearningRate) : M (list LearningRate) :=
               match ls with
               | [] => ret []
               | x :: ls' =>
                   c <- deepcopy_learning_rate x ;;
                   cs <- copies ls' ;;
                   ret (c :: cs)
               end) ls ;;
      ret (LRlist cs)
  end.

(** [DoubleQLearning.__init__]; [n_models] of an ensemble is the number
    of models it holds. *)
Definition DoubleQLearning_init (self : Agent (list Model))
    (approximator_ : list Model) (policy_ : Policy) (params_ : Params)
    : M (Agent (list Model)) :=
  let self := set_name self (Some "DoubleQLearning"%string) in
  self <- TD_init self approximator_ policy_ params_ ;;
  lr <- getattr (learning_rate self) ;;
  c0 <- deepcopy_learning_rate lr ;;
  lr <- getattr (learning_rate self) ;;
  c1 <- deepcopy_learning_rate lr ;;
  let self := set_learning_rate self (Some (LRlist [c0; c1])) in
  apx <- getattr (approximator self) ;;
  assert (length apx =? 2)%nat ;;
  ret self.

(** [WeightedQLearning.__init__].  The four tables are sized after
    [self.approximator.shape] before the base constructor is called. *)
Definition WeightedQLearning_init (self : Agent Model)
    (approximator_ : Model) (policy_ : Policy) (params_ : Params)
    : M (Agent Model) :=
  let self := set_name self (Some "WeightedQLearning"%string) in
  let self :=
    set_sampling self
      (Some (match p_sampling params_ with Some b => b | None => true end)) in
  let self :=
    set_precision self
      (Some (match p_precision params_ with
             | Some n => n
             | None => PyFloat 1000
             end)) in
  let params_ :=
    {| algorithm_params := algorithm_params params_;
       fit_params := fit_params params_;
       p_mdp_info := p_mdp_info params_;
       p_sampling := None;
       p_precision := None |} in
  apx <- getattr (approximator self) ;;
  let self := set_n_updates self (Some (np_zeros (model_shape apx))) in
  apx <- getattr (approximator self) ;;
  let self :=
    set_sigma self (Some (np_scale (np_ones (model_shape apx)) 1e10)) in
  apx <- getattr (approximator self) ;;
  let self := set_Q2 self (Some (np_zeros (model_shape apx))) in
  apx <- getattr (approximator self) ;;
  let self := set_weights_var self (Some (np_zeros (model_shape apx))) in
  TD_init self approximator_ policy_ params_.

(** [Cls(approximator, policy, **params)]: [__init__] on a new object *)
Definition new_QLearning := QLearning_init (fresh Model).
Definition new_SARSA := SARSA_init (fresh Model).
Definition new_DoubleQLearning := DoubleQLearning_init (fresh (list Model)).
Definition new_WeightedQLearning := WeightedQLearning_init (fresh Model).

(** ** The update shared by [QLearning] and [SARSA] *)

(** [lr(sa)] for whatever [lr] is: a list is not callable. *)
Definition call_learning_rate (lr : LearningRate) (sa : SA) : M R :=
  match lr with
  | LRone l => call_rate l sa
  | LRlist _ => raise TypeError
  end.

(** [lr[i]] for whatever [lr] is: a schedule is not subscriptable. *)
Definition learning_rate_item (lr : LearningRate) (i : Z)
    : M LearningRate :=
  match lr with
  | LRone _ => raise TypeError
  | LRlist ls => lift (py_index ls i)
  end.

(** A resolver is the method [_next_q] of the class of [self]; it may
    assign attributes of [self]. *)
Definition Resolver : Type := Agent Model -> State -> M (R * Agent Model).

(** [TD.fit] *)
Definition TD_fit (_next_q : Resolver) (self : Agent Model)
    (dataset : list Transition) (n_fit_iterations : Z) : M (Agent Model) :=
  assert (n_fit_iterations =? 1)%Z ;;
  t <- lift (py_index dataset (-1)) ;;
  '(state, action, reward, next_state, absorbing) <- lift (parse_dataset [t]) ;;
  let sa := (state, action) in
  apx <- getattr (approximator self) ;;
  q_current <- call_predict None apx sa ;;
  '(q_next, self) <-
    (if negb absorbing then _next_q self next_state else ret (0, self)) ;;
  lr <- getattr (learning_rate self) ;;
  alpha <- call_learning_rate lr sa ;;
  mi <- getattr (mdp_info self) ;;
  let q := q_current + alpha * (reward + gamma mi * q_next - q_current) in
  apx <- getattr (approximator self) ;;
  prm <- getattr (params self) ;;
  fp <- getitem (fit_params prm) ;;
  apx <- call_fit None apx sa q fp ;;
  ret (set_approximator self (Some apx)).

(** [TD.__str__] *)
Definition TD_str {Apx} (self : Agent Apx) : M string := getattr (name self).

(** [QLearning._next_q] *)
Definition QLearning_next_q : Resolver := fun self next_state =>
  apx <- getattr (approximator self) ;;
  mi <- getattr (mdp_info self) ;;
  '(max_q, _) <- max_QA None next_state false apx (values (action_space mi)) ;;
  ret (max_q, self).

(** Modelled from the spec: [draw_action] is inherited from [Agent]
    ([PyPi/algorithms/agent.py], not among the sources).  Following the
    spec (section 4.3 and 6) it draws the action from the policy of the
    agent at the given state. *)
Definition draw_action (self : Agent Model) (s : State) : M Action :=
  pol <- getattr (policy self) ;;
  apx <- getattr (approximator self) ;;
  fun w =>
    let (a, g) := policy_draw pol apx s (rng w) in
    Ok (a, {| schedules := schedules w; next_loc := next_loc w; rng := g;
              calls := calls w |}).

(** [SARSA._next_q] *)
Definition SARSA_next_q : Resolver := fun self next_state =>
  a <- draw_action self next_state ;;
  let self := set_next_action self (Some a) in
  a <- getattr (_next_action self) ;;
  let sa_n := (next_state, a) in
  apx <- getattr (approximator self) ;;
  q <- call_predict None apx sa_n ;;
  ret (q, self).

Definition QLearning_fit := TD_fit QLearning_next_q.
Definition SARSA_fit := TD_fit SARSA_next_q.

(** ** Double Q-Learning *)

(** [DoubleQLearning._next_q] *)
Definition DoubleQLearning_next_q (self : Agent (list Model))
    (next_state : State) (approximator_idx : Z) : M R :=
  apx <- getattr (approximator self) ;;
  m <- lift (py_index apx approximator_idx) ;;
  mi <- getattr (mdp_info self) ;;
  '(_, a_n) <- max_QA (Some approximator_idx) next_state false m
                 (values (action_space mi)) ;;
  let sa_n := (next_state, a_n) in
  apx <- getattr (approximator self) ;;
  m' <- lift (py_index apx (1 - approximator_idx)) ;;
  call_predict (Some (1 - approximator_idx)%Z) m' sa_n.

(** [DoubleQLearning.fit] *)
Definition DoubleQLearning_fit (self : Agent (list Model))
    (dataset : list Transition) (n_fit_iterations : Z)
    : M (Agent (list Model)) :=
  assert (n_fit_iterations =? 1)%Z ;;
  t <- lift (py_index dataset (-1)) ;;
  '(state, action, reward, next_state, absorbing) <- lift (parse_dataset [t]) ;;
  let sa := (state, action) in
  u <- call_uniform ;;
  let approximator_idx := if Rlt_dec u 0.5 then 0%Z else 1%Z in
  apx <- getattr (approximator self) ;;
  m <- lift (py_index apx approximator_idx) ;;
  q_current <- call_predict (Some approximator_idx) m sa ;;
  q_next <-
    (if negb absorbing
     then DoubleQLearning_next_q self next_state approximator_idx
     else ret 0) ;;
  lrs <- getattr (learning_rate self) ;;
  lr <- learning_rate_item lrs approximator_idx ;;
  alpha <- call_learning_rate lr sa ;;
  mi <- getattr (mdp_info self) ;;
  let q := q_current + alpha * (reward + gamma mi * q_next - q_current) in
  apx <- getattr (approximator self) ;;
  m <- lift (py_index apx approximator_idx) ;;
  prm <- getattr (params self) ;;
  fp <- getitem (fit_params prm) ;;
  m <- call_fit (Some approximator_idx) m sa q fp ;;
  ret (set_approximator self (Some (py_update apx approximator_idx m))).

(** ** Weighted Q-Learning *)

(** The loop of [WeightedQLearning._next_q] that fills the rows [means]
    and [sigmas], [i] being the position [enumerate] has reached.  The
    subscript of [self._sigma] is the pair of the list [sa_n] and of [a]:
    it selects one entry per item of [sa_n], and the array of these
    entries is what is stored in the slot [sigmas[0, i]]. *)
Fixpoint fill_rows (self : Agent Model) (next_state : State) (i : nat)
    (actions : list Action) (means sigmas : list R)
    : M (list R * list R) :=
  match actions with
  | [] => ret (means, sigmas)
  | a :: actions' =>
      let sa_n := (next_state, a) in
      apx <- getattr (approximator self) ;;
      q <- call_predict None apx sa_n ;;
      means <- lift (set_at means i q) ;;
      sg <- getattr (_sigma self) ;;
      v <- lift (take_entries sg [state_index next_state; action_index a]
                   (action_index a)) ;;
      sigmas <- lift (set_at_array sigmas i v) ;;
      fill_rows self next_state (S i) actions' means sigmas
  end.

(** [WeightedQLearning._next_q] *)
Definition WeightedQLearning_next_q (self : Agent Model)
    (next_state : State) : M R :=
  mi <- getattr (mdp_info self) ;;
  let means := repeat 0 (size (action_space mi)) in
  let sigmas := repeat 0 (length means) in
  mi <- getattr (mdp_info self) ;;
  let actions := values (action_space mi) in
  '(means, sigmas) <- fill_rows self next_state 0 actions means sigmas ;;
  smp <- getattr (sampling self) ;;
  w <- (if smp : bool then
          prec <- getattr (precision self) ;;
          loc <- lift (np_repeat means prec) ;;
          prec <- getattr (precision self) ;;
          scale <- lift (np_repeat sigmas prec) ;;
          samples <- call_normal loc scale ;;
          max_idx <- lift (np_argmax_rows samples) ;;
          let max_count := map snd (np_unique max_idx) in
          prec <- getattr (precision self) ;;
          ret (map (fun c => INR c / number_value prec) max_count)
        else raise NotImplementedError) ;;
  apx <- getattr (approximator self) ;;
  qs <- mapM (fun a => call_predict None apx (next_state, a)) actions ;;
  lift (np_dot w qs).

(** [WeightedQLearning.fit].  The subscript [sa] of the four tables is
    the Python list [[state, action]]. *)
Definition WeightedQLearning_fit (self : Agent Model)
    (dataset : list Transition) (n_fit_iterations : Z) : M (Agent Model) :=
  assert (n_fit_iterations =? 1)%Z ;;
  t <- lift (py_index dataset (-1)) ;;
  '(state, action, reward, next_state, absorbing) <- lift (parse_dataset [t]) ;;
  let sa := (state, action) in
  let sa_list := [state_index state; action_index action] in
  apx <- getattr (approximator self) ;;
  q_current <- call_predict None apx sa ;;
  q_next <-
    (if negb absorbing then WeightedQLearning_next_q self next_state
     else ret 0) ;;
  mi <- getattr (mdp_info self) ;;
  let target := reward + gamma mi * q_next in
  lr <- getattr (learning_rate self) ;;
  alpha <- call_learning_rate lr sa ;;
  let q := q_current + alpha * (target - q_current) in
  apx <- getattr (approximator self) ;;
  prm <- getattr (params self) ;;
  fp <- getitem (fit_params prm) ;;
  apx <- call_fit None apx sa q fp ;;
  let self := set_approximator self (Some apx) in
  nu <- getattr (_n_updates self) ;;
  v <- lift (take_rows nu sa_list) ;;
  nu <- lift (put_rows nu sa_list (map (fun x => x + 1) v)) ;;
  let self := set_n_updates self (Some nu) in
  q2 <- getattr (_Q2 self) ;;
  v1 <- lift (take_rows q2 sa_list) ;;
  q2 <- getattr (_Q2 self) ;;
  v2 <- lift (take_rows q2 sa_list) ;;
  v <- lift (np_map2 (fun x y => x + alpha * target ^ 2 - alpha * y) v1 v2) ;;
  q2 <- getattr (_Q2 self) ;;
  q2 <- lift (put_rows q2 sa_list v) ;;
  let self := set_Q2 self (Some q2) in
  nu <- getattr (_n_updates self) ;;
  v <- lift (take_rows nu sa_list) ;;
  b <- lift (np_truth (map (fun x => if Rlt_dec 1 x then true else false) v)) ;;
  if b : bool then
    wv <- getattr (_weights_var self) ;;
    v <- lift (take_rows wv sa_list) ;;
    wv <- getattr (_weights_var self) ;;
    wv <- lift (put_rows wv sa_list
                  (map (fun x => (1 - alpha) ^ 2 * x + alpha ^ 2) v)) ;;
    let self := set_weights_var self (Some wv) in
    wv <- getattr (_weights_var self) ;;
    v <- lift (take_rows wv sa_list) ;;
    let n := map (fun x => 1 / x) v in
    q2 <- getattr (_Q2 self) ;;
    v <- lift (take_rows q2 sa_list) ;;
    let diff := map (fun x => x - q ^ 2) v in
    let diff := map (fun x => np_clip_inf x 0) diff in
    v <- lift (np_map2 Rdiv diff n) ;;
    sg <- getattr (_sigma self) ;;
    sg <- lift (put_rows sg sa_list (map sqrt v)) ;;
    ret (set_sigma self (Some sg))
  else ret self.

(** ** The observation callback *)

Record CollectMaxQ : Type := {
  _approximator : Model;
  _state : State;
  _action_values : list Action;
  _max_Qs : list R
}.

(** [CollectMaxQ.__init__] *)
Definition CollectMaxQ_init (approximator_ : Model) (state_ : State)
    (action_values : list Action) : CollectMaxQ :=
  {| _approximator := approximator_; _state := state_;
     _action_values := action_values; _max_Qs := [] |}.

(** [CollectMaxQ.__call__]; [max_Q[0]] is the entry of the only state. *)
Definition CollectMaxQ_call (self : CollectMaxQ) : M CollectMaxQ :=
  '(max_Q, _) <- max_QA None (_state self) false (_approximator self)
                   (_action_values self) ;;
  ret {| _approximator := _approximator self; _state := _state self;
         _action_values := _action_values self;
         _max_Qs := _max_Qs self ++ [max_Q] |}.

(** [CollectMaxQ.get_values] *)
Definition get_values (self : CollectMaxQ) : list R := _max_Qs self.

End TD.

Arguments name {C Apx} _.
Arguments approximator {C Apx} _.
Arguments policy {C Apx} _.
Arguments mdp_info {C Apx} _.
Arguments params {C Apx} _.
Arguments learning_rate {C Apx} _.
Arguments _next_action {C Apx} _.
Arguments sampling {C Apx} _.
Arguments precision {C Apx} _.
Arguments _n_updates {C Apx} _.
Arguments _sigma {C Apx} _.
Arguments _Q2 {C Apx} _.
Arguments _weights_var {C Apx} _.

(** ** A tabular instance of the collaborators

    States and actions are numbered; the states are held in arrays of
    floats, as the columns of a dataset are, and the actions in arrays of
    integers; a regressor is a table that [fit] overwrites at the fitted
    key; a schedule returns a fixed step size and
    counts its calls; the policy is a fixed map from states to actions;
    the random source is a list of numbers drawn in advance, [uniform]
    taking the next one as it is and [normal] turning the next one, [z],
    into [mean + sigma * z]. *)

Definition key_eq_dec (x y : nat * nat) : {x = y} + {x <> y}.
Proof. decide equality; apply Nat.eq_dec. Defined.

Definition table_fit (m : (nat * nat) * (nat * nat -> R)) (sa : nat * nat)
    (q : R) (_ : unit) : (nat * nat) * (nat * nat -> R) :=
  (fst m, fun k => if key_eq_dec k sa then q else snd m k).

Fixpoint normal_row (g : list R) (means sigmas : list R)
    : list R * list R :=
  match means, sigmas with
  | m :: means', s :: sigmas' =>
      let (x, g') := normal_row (tl g) means' sigmas' in
      ((m + s * hd 0 g) :: x, g')
  | _, _ => ([], g)
  end.

Fixpoint normal_rows (g : list R) (means sigmas : list (list R))
    : list (list R) * list R :=
  match means, sigmas with
  | m :: means', s :: sigmas' =>
      let (x, g') := normal_row g m s in
      let (xs, g'') := normal_rows g' means' sigmas' in
      (x :: xs, g'')
  | _, _ => ([], g)
  end.

Definition Tabular : Collaborators := {|
  State := nat;
  Action := nat;
  Model := (nat * nat) * (nat * nat -> R);
  FitParams := unit;
  Shape := nat * nat;
  predict := fun m sa => snd m sa;
  model_fit := table_fit;
  state_index := fun _ => None;
  action_index := fun a => Some (Z.of_nat a);
  model_shape := fun m => fst m;
  shape_dims := fun sh => sh;
  Schedule := R * nat;
  rate := fun s _ => (fst s, (fst s, S (snd s)));
  Policy := nat -> nat;
  Rng := list R;
  policy_draw := fun pol _ s g => (pol s, g);
  uniform := fun g => (hd 0 g, tl g);
  normal := normal_rows
|}.

(** The same collaborators with the states held in arrays of integers,
    which numpy accepts as indices *)
Definition TabularInt : Collaborators := {|
  State := nat;
  Action := nat;
  state_index := fun s => Some (Z.of_nat s);
  action_index := fun a => Some (Z.of_nat a);
  Model := (nat * nat) * (nat * nat -> R);
  FitParams := unit;
  Shape := nat * nat;
  predict := fun m sa => snd m sa;
  model_fit := table_fit;
  model_shape := fun m => fst m;
  shape_dims := fun sh => sh;
  Schedule := R * nat;
  rate := fun s _ => (fst s, (fst s, S (snd s)));
  Policy := nat -> nat;
  Rng := list R;
  policy_draw := fun pol _ s g => (pol s, g);
  uniform := fun g => (hd 0 g, tl g);
  normal := normal_rows
|}.

(** A table of zeros for two states and two actions *)
Definition zero_model : @Model Tabular := ((2%nat, 2%nat), fun _ => 0).

(** A table whose entry is [1] for action [0] and [0] for action [1] *)
Definition left_model : @Model Tabular :=
  ((2%nat, 2%nat), fun k => if Nat.eq_dec (snd k) 0 then 1 else 0).

(** A table whose entry is [0] for action [0] and [2] for action [1] *)
Definition right_model : @Model Tabular :=
  ((2%nat, 2%nat), fun k => if Nat.eq_dec (snd k) 0 then 0 else 2).

Definition two_actions : @MDPInfo Tabular :=
  @Build_MDPInfo Tabular 0.9 (@Build_ActionSpace Tabular [0%nat; 1%nat] 2).

(** Keyword arguments with a schedule at address [0] *)
Definition some_params : @Params Tabular :=
  @Build_Params Tabular (Some (Build_AlgorithmParams (Some 0%nat)))
    (Some tt) two_actions None None.

(** A world whose schedules all return the step size [0.1] and whose
    random source yields the numbers [g]. *)
Definition some_world (g : list R) : @World Tabular :=
  @Build_World Tabular (fun _ => (0.1, 0%nat)) 1 g [].

(** The transition of the end-to-end example of the spec *)
Definition absorbing_step : @Transition Tabular :=
  @Build_Transition Tabular 0%nat 1%nat 5 0%nat true.

Definition plain_step : @Transition Tabular :=
  @Build_Transition Tabular 0%nat 1%nat 5 1%nat false.

(** A [DoubleQLearning] agent built by its constructor on the two tables
    [left_model] and [right_model], with a policy that always plays
    action [0], in a world whose random source yields [g] *)
Definition dq_start (g : list R)
    : result (@Agent Tabular (list (@Model Tabular)) * @World Tabular) :=
  @new_DoubleQLearning Tabular [left_model; right_model] (fun _ => 0%nat)
    some_params (some_world g).

(** A [WeightedQLearning] agent with the attributes its constructor
    means to give it: the table [left_model] as approximator, two sample
    rows per resolution, and the four statistics in their initial state. *)
Definition wq_agent (smp : bool) : @Agent Tabular (@Model Tabular) :=
  @Build_Agent Tabular (@Model Tabular)
    (Some "WeightedQLearning"%string) (Some left_model)
    (Some (fun _ => 0%nat)) (Some two_actions)
    (Some (@Build_Params Tabular (Some (Build_AlgorithmParams None))
             (Some tt) two_actions None None))
    (Some (LRone 0)) None (Some smp) (Some (PyInt 2))
    (Some (@np_zeros Tabular (2%nat, 2%nat)))
    (Some (@np_scale Tabular (@np_ones Tabular (2%nat, 2%nat)) 1e10))
    (Some (@np_zeros Tabular (2%nat, 2%nat)))
    (Some (@np_zeros Tabular (2%nat, 2%nat))).

(** The agent [wq_agent true], the absorbing transition and the world of
    the examples, with states held in arrays of integers *)
Definition wq_agent_int : @Agent TabularInt (@Model TabularInt) :=
  @Build_Agent TabularInt (@Model TabularInt)
    (Some "WeightedQLearning"%string) (Some left_model)
    (Some (fun _ => 0%nat))
    (Some (@Build_MDPInfo TabularInt 0.9
             (@Build_ActionSpace TabularInt [0%nat; 1%nat] 2)))
    (Some (@Build_Params TabularInt (Some (Build_AlgorithmParams None))
             (Some tt)
             (@Build_MDPInfo TabularInt 0.9
                (@Build_ActionSpace TabularInt [0%nat; 1%nat] 2))
             None None))
    (Some (LRone 0)) None (Some true) (Some (PyInt 2))
    (Some (@np_zeros TabularInt (2%nat, 2%nat)))
    (Some (@np_scale TabularInt (@np_ones TabularInt (2%nat, 2%nat)) 1e10))
    (Some (@np_zeros TabularInt (2%nat, 2%nat)))
    (Some (@np_zeros TabularInt (2%nat, 2%nat))).

Definition absorbing_step_int : @Transition TabularInt :=
  @Build_Transition TabularInt 0%nat 1%nat 5 0%nat true.

Definition some_world_int (g : list R) : @World TabularInt :=
  @Build_World TabularInt (fun _ => (0.1, 0%nat)) 1 g [].

(** The keyword dictionary as [TD.__init__] leaves it *)
Definition popped_params : @Params Tabular :=
  @Build_Params Tabular (Some (Build_AlgorithmParams None)) (Some tt)
    two_actions None None.

(** The [DoubleQLearning] agent that [dq_start] returns *)
Definition dq_agent : @Agent Tabular (list (@Model Tabular)) :=
  @Build_Agent Tabular (list (@Model Tabular))
    (Some "DoubleQLearning"%string) (Some [left_model; right_model])
    (Some (fun _ => 0%nat)) (Some two_actions) (Some popped_params)
    (Some (LRlist [LRone 1; LRone 2])) None None None None None None None.

(** A [QLearning] agent on the table of zeros *)
Definition q_agent : @Agent Tabular (@Model Tabular) :=
  @Build_Agent Tabular (@Model Tabular)
    (Some "QLearning"%string) (Some zero_model)
    (Some (fun _ => 0%nat)) (Some two_actions) (Some popped_params)
    (Some (LRone 0)) None None None None None None None.

(** A [SARSA] agent on [left_model] whose policy always plays action
    [1], the action with the smaller prediction *)
Definition sarsa_agent : @Agent Tabular (@Model Tabular) :=
  @Build_Agent Tabular (@Model Tabular)
    (Some "SARSA"%string) (Some left_model)
    (Some (fun _ => 1%nat)) (Some two_actions) (Some popped_params)
    (Some (LRone 0)) None None None None None None None.

(** Keyword arguments with [sampling=False] *)
Definition no_sampling_params : @Params Tabular :=
  @Build_Params Tabular (Some (Build_AlgorithmParams (Some 0%nat)))
    (Some tt) two_actions (Some false) None.

(** Keyword arguments without the dictionary [algorithm_params] *)
Definition no_params : @Params Tabular :=
  @Build_Params Tabular None (Some tt) two_actions None None.

(** ** Vocabulary of the statements *)

Section Vocabulary.

Context {C : Collaborators}.

(** The world after the calls [cs] (newest first) were recorded *)
Definition add_calls (cs : list Call) (w : World) : World :=
  {| schedules := schedules w; next_loc := next_loc w; rng := rng w;
     calls := cs ++ calls w |}.

(** One prediction of the regressor tagged [i] per action, at state [s] *)
Definition predictions (i : option Z) (s : State) (actions : list Action)
    : list Call :=
  map (fun a => CPredict i (s, a)) actions.

(** [v] is the largest value [m] predicts at [s] over [actions], and [a]
    is an action of [actions] that attains it. *)
Definition is_max_at (m : Model) (s : State) (actions : list Action)
    (v : R) (a : Action) : Prop :=
  In a actions /\ v = predict m (s, a) /\
  forall b, In b actions -> predict m (s, b) <= v.

(** Successive invocations of the callback, one per entry of [ms]: the
    approximator the callback refers to is shared with the agent that
    trains it, and [ms] lists the state it is in at each invocation. *)
Fixpoint CollectMaxQ_calls (self : CollectMaxQ) (ms : list Model)
    : M CollectMaxQ :=
  match ms with
  | [] => ret self
  | m :: ms' =>
      bind (CollectMaxQ_call
              {| _approximator := m; _state := _state self;
                 _action_values := _action_values self;
                 _max_Qs := _max_Qs self |})
           (fun self' => CollectMaxQ_calls self' ms')
  end.

(** A call that only reads the approximator *)
Definition is_prediction (c : Call) : Prop :=
  match c with
  | CPredict _ _ => True
  | _ => False
  end.

(** The model index [DoubleQLearning.fit] derives from the draw [u] *)
Definition coin (u : R) : Z := if Rlt_dec u 0.5 then 0%Z else 1%Z.

(** The first of two things for index 0, the second otherwise *)
Definition pick {A} (idx : Z) (x0 x1 : A) : A :=
  if (idx =? 0)%Z then x0 else x1.

(** A [DoubleQLearning] agent as its constructor leaves it: two models,
    two schedules at distinct addresses, the MDP description and the
    keyword dictionary with its fit options. *)
Definition dq_ready (self : Agent (list Model)) (m0 m1 : Model)
    (l0 l1 : nat) (mi : MDPInfo) (prm : Params) (fp : FitParams) : Prop :=
  approximator self = Some [m0; m1] /\
  learning_rate self = Some (LRlist [LRone l0; LRone l1]) /\
  l0 <> l1 /\
  mdp_info self = Some mi /\
  params self = Some prm /\
  fit_params prm = Some fp.

(** Successive calls of [DoubleQLearning.fit], one per dataset *)
Fixpoint DoubleQLearning_fits (self : Agent (list Model))
    (dss : list (list Transition)) : M (Agent (list Model)) :=
  match dss with
  | [] => ret self
  | ds :: dss' =>
      bind (DoubleQLearning_fit self ds 1)
           (fun self' => DoubleQLearning_fits self' dss')
  end.

(** Among the calls [cs]: the number of [fit] calls on model [i], of
    calls of the schedule at address [l], and of draws that select
    model [i]. *)
Fixpoint count_fits (i : Z) (cs : list Call) : nat :=
  match cs with
  | [] => 0
  | CFit (Some j) _ _ :: cs' =>
      ((if (i =? j)%Z then 1 else 0) + count_fits i cs')%nat
  | _ :: cs' => count_fits i cs'
  end.

Fixpoint count_rates (l : nat) (cs : list Call) : nat :=
  match cs with
  | [] => 0
  | CRate l' _ :: cs' =>
      ((if (l =? l')%nat then 1 else 0) + count_rates l cs')%nat
  | _ :: cs' => count_rates l cs'
  end.

Fixpoint count_coins (i : Z) (cs : list Call) : nat :=
  match cs with
  | [] => 0
  | CUniform u :: cs' =>
      ((if (i =? coin u)%Z then 1 else 0) + count_coins i cs')%nat
  | _ :: cs' => count_coins i cs'
  end.

(** Among the calls [cs]: the number of [predict] calls on model [i] *)
Fixpoint count_predicts (i : Z) (cs : list Call) : nat :=
  match cs with
  | [] => 0
  | CPredict (Some j) _ :: cs' =>
      ((if (i =? j)%Z then 1 else 0) + count_predicts i cs')%nat
  | _ :: cs' => count_predicts i cs'
  end.

(** A call that touches nothing but the model of index [idx] and the
    schedule at address [l] *)
Definition on_selected_only (idx : Z) (l : nat) (c : Call) : Prop :=
  match c with
  | CPredict i _ => i = Some idx
  | CFit i _ _ => i = Some idx
  | CRate l' _ => l' = l
  | CUniform _ => True
  end.

(** The values of [seq s len] that occur in [l], each with the number
    of its occurrences *)
Definition occurring (l : list nat) (s len : nat) : list (nat * nat) :=
  flat_map (fun k => if (count_occ Nat.eq_dec l k =? 0)%nat then []
                     else [(k, count_occ Nat.eq_dec l k)])
           (seq s len).

(** Following the words of the spec (section 4.5, step 2): among [n]
    actions the weight of the action at position [i] is the number of
    sample rows whose arg-max is [i], divided by [precision]. *)
Definition spec_weights (max_idx : list nat) (n : nat) (prec : R) : list R :=
  map (fun i => INR (count_occ Nat.eq_dec max_idx i) / prec) (seq 0 n).

End Vocabulary.

(** Settles the comparisons of concrete numbers a goal is stuck on. *)
Ltac settle_comparisons :=
  repeat match goal with
         | |- context [Rlt_dec ?a ?b] =>
             destruct (Rlt_dec a b); [try (exfalso; lra)|try (exfalso; lra)]
         end.

(** * Properties *)

Section Constructors.

Context {C : Collaborators}.

(** C5.  [WeightedQLearning(approximator, policy, **params)] never
    completes: [__init__] sizes the four statistics tables after
    [self.approximator.shape] before the base constructor has stored the
    approximator, so the read of the attribute raises [AttributeError]
    whatever the arguments are, and no table is ever created. *)
Theorem WeightedQLearning_init_raises :
  forall (approximator_ : Model) (policy_ : Policy) (params_ : Params)
         (w : World),
    new_WeightedQLearning approximator_ policy_ params_ w
    = Raise AttributeError.
Proof. intros. reflexivity. Qed.

(** The values the four tables are meant to start with: on an instance
    that already had its approximator, the rest of
    [WeightedQLearning.__init__] would run through and leave
    [n_updates], [Q2] and [weights_var] at 0 and [sigma] at [1e10]
    everywhere, with the shape of the approximator. *)
Lemma WeightedQLearning_init_intended (self : Agent Model)
    (m0 approximator_ : Model) (policy_ : Policy) (params_ : Params)
    (ap : AlgorithmParams) (l : nat) (w : World) :
  approximator self = Some m0 ->
  algorithm_params params_ = Some ap ->
  p_learning_rate ap = Some l ->
  exists self',
    WeightedQLearning_init self approximator_ policy_ params_ w
    = Ok (self', w) /\
    _n_updates self' = Some (np_zeros (model_shape m0)) /\
    _sigma self' = Some (np_scale (np_ones (model_shape m0)) 1e10) /\
    _Q2 self' = Some (np_zeros (model_shape m0)) /\
    _weights_var self' = Some (np_zeros (model_shape m0)) /\
    forall sh i j, tdata (np_zeros sh) i j = 0 /\
                   tdata (np_scale (np_ones sh) 1e10) i j = 1e10.
Proof.
  intros Hapx Hap Hl.
  unfold WeightedQLearning_init, TD_init, Agent_init, bind, getattr,
    getitem, ret.
  cbn. rewrite Hapx, Hap, Hl. cbn.
  eexists. split; [reflexivity|]. cbn.
  repeat split; try reflexivity. cbn. lra.
Qed.

(** The agent [DoubleQLearning.__init__] returns on two models is the
    kind of agent [dq_ready] describes. *)
Lemma DoubleQLearning_init_ready (m0 m1 : Model) (policy_ : Policy)
    (params_ : Params) (ap : AlgorithmParams) (l : nat) (fp : FitParams)
    (w : World) :
  algorithm_params params_ = Some ap ->
  p_learning_rate ap = Some l ->
  fit_params params_ = Some fp ->
  exists self w' prm,
    new_DoubleQLearning [m0; m1] policy_ params_ w = Ok (self, w') /\
    dq_ready self m0 m1 (next_loc w) (S (next_loc w)) (p_mdp_info params_)
      prm fp /\
    calls w' = calls w /\ rng w' = rng w.
Proof.
  intros Hap Hl Hfp.
  unfold new_DoubleQLearning, DoubleQLearning_init, TD_init, Agent_init,
    bind, getitem, getattr, ret, assert, raise, deepcopy_learning_rate,
    deepcopy.
  rewrite Hap, Hl. cbn.
  eexists. eexists. eexists. split; [reflexivity|]. cbn.
  unfold dq_ready. cbn. repeat split; try reflexivity; try assumption.
  lia.
Qed.

(** C8.  Given keyword arguments that carry a learning-rate schedule,
    [DoubleQLearning(approximator, policy, **params)] raises the
    [AssertionError] of the two-model check when the ensemble does not
    hold exactly two models, and no agent is returned; with exactly two
    models it returns an agent that holds the ensemble and two copies of
    the schedule at two new, distinct addresses, the schedules that
    existed before being left as they were. *)
Theorem DoubleQLearning_init_two_models :
  forall (approximator_ : list Model) (policy_ : Policy) (params_ : Params)
         (ap : AlgorithmParams) (l : nat) (w : World),
    algorithm_params params_ = Some ap ->
    p_learning_rate ap = Some l ->
    (length approximator_ <> 2%nat ->
     new_DoubleQLearning approximator_ policy_ params_ w
     = Raise AssertionError) /\
    (length approximator_ = 2%nat ->
     exists self w',
       new_DoubleQLearning approximator_ policy_ params_ w = Ok (self, w') /\
       approximator self = Some approximator_ /\
       learning_rate self
       = Some (LRlist [LRone (next_loc w); LRone (S (next_loc w))]) /\
       schedules w' (next_loc w) = schedules w l /\
       schedules w' (S (next_loc w)) = schedules w l /\
       (forall k, (k < next_loc w)%nat -> schedules w' k = schedules w k)).
Proof.
  intros apx pol prm ap l w Hap Hl.
  unfold new_DoubleQLearning, DoubleQLearning_init, TD_init, Agent_init,
    bind, getitem, getattr, ret, assert, raise, deepcopy_learning_rate,
    deepcopy.
  rewrite Hap, Hl. cbn.
  split; intros Hn.
  - apply Nat.eqb_neq in Hn. rewrite Hn. reflexivity.
  - rewrite Hn. cbn. eexists. eexists. split; [reflexivity|]. cbn.
    repeat split.
    + rewrite Nat.eqb_refl.
      destruct (next_loc w =? S (next_loc w))%nat eqn:E; [|reflexivity].
      apply Nat.eqb_eq in E. lia.
    + rewrite Nat.eqb_refl.
      destruct (l =? next_loc w)%nat; reflexivity.
    + intros k Hk.
      destruct (k =? S (next_loc w))%nat eqn:E1;
        [apply Nat.eqb_eq in E1; lia|].
      destruct (k =? next_loc w)%nat eqn:E2;
        [apply Nat.eqb_eq in E2; lia|reflexivity].
Qed.

End Constructors.

Section Resolvers.

Context {C : Collaborators}.

Lemma py_index_pair_0 {A} (a b : A) : py_index [a; b] 0 = Ok a.
Proof. reflexivity. Qed.

Lemma py_index_pair_1 {A} (a b : A) : py_index [a; b] 1 = Ok b.
Proof. reflexivity. Qed.

Lemma py_update_pair_0 {A} (a b v : A) : py_update [a; b] 0 v = [v; b].
Proof. reflexivity. Qed.

Lemma py_update_pair_1 {A} (a b v : A) : py_update [a; b] 1 v = [a; v].
Proof. reflexivity. Qed.

(** [dataset[-1]] is the last transition. *)
Lemma py_index_last {A} (l : list A) (a : A) :
  py_index (l ++ [a]) (-1) = Ok a.
Proof.
  unfold py_index. rewrite length_app. cbn [length].
  replace (-1 <? 0)%Z with true by reflexivity.
  replace (Z.of_nat (length l + 1) + -1)%Z with (Z.of_nat (length l)) by lia.
  replace ((0 <=? Z.of_nat (length l))%Z) with true
    by (symmetry; apply Z.leb_le; lia).
  replace ((Z.of_nat (length l) <? Z.of_nat (length l + 1))%Z) with true
    by (symmetry; apply Z.ltb_lt; lia).
  cbn [andb]. rewrite Nat2Z.id.
  rewrite nth_error_app2 by lia. rewrite Nat.sub_diag. reflexivity.
Qed.

Lemma py_index_nil {A} (i : Z) : py_index (@nil A) i = Raise IndexError.
Proof.
  unfold py_index. cbn [length].
  match goal with |- (if ?c then _ else _) = _ => destruct c end;
    [|reflexivity].
  match goal with |- context [nth_error [] ?n] => destruct n end;
    reflexivity.
Qed.

(** Running a computation whose first step is known *)
Lemma bind_ok {A B} (c : M A) (k : A -> M B) (w w' : World) (a : A) :
  c w = Ok (a, w') -> bind c k w = k a w'.
Proof. intros H. unfold bind. now rewrite H. Qed.

Lemma bind_raise {A B} (c : M A) (k : A -> M B) (w : World) (e : exn) :
  c w = Raise e -> bind c k w = Raise e.
Proof. intros H. unfold bind. now rewrite H. Qed.

Lemma getattr_some {A} (field : option A) (a : A) (w : World) :
  field = Some a -> getattr field w = Ok (a, w).
Proof. now intros ->. Qed.

Lemma getitem_some {A} (entry : option A) (a : A) (w : World) :
  entry = Some a -> getitem entry w = Ok (a, w).
Proof. now intros ->. Qed.

Lemma lift_ok {A} (r : result A) (a : A) (w : World) :
  r = Ok a -> lift r w = Ok (a, w).
Proof. now intros ->. Qed.

Lemma call_rate_spec (l : nat) (sa : SA) (w : World) :
  call_rate l sa w
  = Ok (fst (rate (schedules w l) sa),
        {| schedules := fun l' => if (l' =? l)%nat
                                  then snd (rate (schedules w l) sa)
                                  else schedules w l';
           next_loc := next_loc w; rng := rng w;
           calls := CRate l sa :: calls w |}).
Proof. unfold call_rate. now destruct (rate (schedules w l) sa). Qed.

Lemma add_calls_nil (w : World) : add_calls [] w = w.
Proof. destruct w; reflexivity. Qed.

Lemma add_calls_app (cs ds : list Call) (w : World) :
  add_calls cs (add_calls ds w) = add_calls (cs ++ ds) w.
Proof. unfold add_calls; cbn. now rewrite app_assoc. Qed.

Lemma log_add_calls (c : Call) (w : World) : log c w = add_calls [c] w.
Proof. reflexivity. Qed.

Lemma mapM_predict (i : option Z) (m : Model) (s : State)
    (actions : list Action) (w : World) :
  mapM (fun a => call_predict i m (s, a)) actions w
  = Ok (map (fun a => predict m (s, a)) actions,
        add_calls (rev (predictions i s actions)) w).
Proof.
  revert w. induction actions as [|a actions IH]; intros w; cbn.
  - unfold ret. now rewrite add_calls_nil.
  - unfold bind. rewrite IH. unfold ret.
    rewrite log_add_calls, add_calls_app. reflexivity.
Qed.

Lemma fold_better_spec (cs : list (R * Action)) (c : R * Action) :
  In (fold_left better cs c) (c :: cs) /\
  forall x, In x (c :: cs) -> fst x <= fst (fold_left better cs c).
Proof.
  revert c. induction cs as [|d cs IH]; intros c; cbn.
  - split; [now left|]. intros x [<-|[]]. lra.
  - destruct (IH (better c d)) as [Hin Hmax]. split.
    + destruct Hin as [Hin|Hin]; [|now right; right].
      rewrite <- Hin. unfold better.
      destruct (Rlt_dec (fst c) (fst d)); [right; now left|now left].
    + intros x Hx.
      assert (Hb : fst c <= fst (better c d) /\ fst d <= fst (better c d)).
      { unfold better. destruct (Rlt_dec (fst c) (fst d)); lra. }
      assert (Hbm : fst (better c d) <= fst (fold_left better cs (better c d))).
      { apply Hmax. now left. }
      destruct Hx as [<-|[<-|Hx]]; [lra|lra|].
      apply Hmax. now right.
Qed.

Lemma in_combine_predict (m : Model) (s : State) (actions : list Action)
    (v : R) (a : Action) :
  In (v, a) (combine (map (fun b => predict m (s, b)) actions) actions) ->
  In a actions /\ v = predict m (s, a).
Proof.
  induction actions as [|b actions IH]; cbn; [tauto|].
  intros [H|H].
  - inversion H; subst. split; [now left|reflexivity].
  - destruct (IH H). split; [now right|assumption].
Qed.

Lemma combine_predict_in (m : Model) (s : State) (actions : list Action)
    (b : Action) :
  In b actions ->
  In (predict m (s, b), b)
     (combine (map (fun b => predict m (s, b)) actions) actions).
Proof.
  induction actions as [|c actions IH]; cbn; [tauto|].
  intros [->|H]; [now left|right; auto].
Qed.

(** On a non-empty action set [max_QA] returns the largest prediction
    and an action attaining it, having asked one prediction per action. *)
Lemma max_QA_spec (i : option Z) (s : State) (f : bool) (m : Model)
    (actions : list Action) (w : World) :
  actions <> [] ->
  exists v a,
    max_QA i s f m actions w
    = Ok ((v, a), add_calls (rev (predictions i s actions)) w) /\
    is_max_at m s actions v a.
Proof.
  intros Hne. unfold max_QA, bind. rewrite mapM_predict.
  destruct actions as [|a0 actions]; [contradiction|].
  cbn [map combine].
  set (c := (predict m (s, a0), a0)).
  set (cs := combine (map (fun a => predict m (s, a)) actions) actions).
  destruct (fold_better_spec cs c) as [Hin Hmax].
  destruct (fold_left better cs c) as [v a] eqn:E.
  exists v, a. split; [reflexivity|].
  assert (Hin' : In (v, a)
            (combine (map (fun b => predict m (s, b)) (a0 :: actions))
                     (a0 :: actions))) by exact Hin.
  apply in_combine_predict in Hin'. destruct Hin' as [Ha Hv].
  repeat split; try assumption.
  intros b Hb.
  apply (combine_predict_in m s) in Hb.
  apply (Hmax _ Hb).
Qed.

(** On an empty action set [max_QA] raises. *)
Lemma max_QA_empty (i : option Z) (s : State) (f : bool) (m : Model)
    (w : World) :
  max_QA i s f m [] w = Raise ValueError.
Proof. reflexivity. Qed.

(** [DoubleQLearning._next_q] on two models, with the calls it makes *)
Lemma DoubleQLearning_next_q_spec :
  forall (self : Agent (list Model)) (m0 m1 : Model) (mi : MDPInfo)
         (ns : State) (idx : Z) (w : World),
    approximator self = Some [m0; m1] ->
    mdp_info self = Some mi ->
    values (action_space mi) <> [] ->
    idx = 0%Z \/ idx = 1%Z ->
    let selected := if (idx =? 0)%Z then m0 else m1 in
    let other := if (idx =? 0)%Z then m1 else m0 in
    exists v a,
      DoubleQLearning_next_q self ns idx w
      = Ok (predict other (ns, a),
            add_calls
              (CPredict (Some (1 - idx)%Z) (ns, a)
               :: rev (predictions (Some idx) ns (values (action_space mi))))
              w) /\
      is_max_at selected ns (values (action_space mi)) v a.
Proof.
  intros self m0 m1 mi ns idx w Hapx Hmi Hne Hidx selected other.
  unfold DoubleQLearning_next_q, bind, getattr, ret, lift.
  rewrite Hapx, Hmi.
  destruct Hidx as [-> | ->]; subst selected other;
    cbn -[max_QA py_index]; change (1 - 0)%Z with 1%Z;
    change (1 - 1)%Z with 0%Z;
    rewrite ?py_index_pair_0, ?py_index_pair_1.
  - destruct (max_QA_spec (Some 0%Z) ns false m0 _ w Hne)
      as (v & a & E & Hmax).
    rewrite E. exists v, a. split; [|exact Hmax].
    unfold call_predict. rewrite log_add_calls, add_calls_app. reflexivity.
  - destruct (max_QA_spec (Some 1%Z) ns false m1 _ w Hne)
      as (v & a & E & Hmax).
    rewrite E. exists v, a. split; [|exact Hmax].
    unfold call_predict. rewrite log_add_calls, add_calls_app. reflexivity.
Qed.

(** C4.  For an agent holding the two models [m0] and [m1], a non-empty
    action set and a selected index [idx] of 0 or 1,
    [DoubleQLearning._next_q(next_state, idx)] returns the prediction of
    the model that was NOT selected at [(next_state, a)], where [a] is an
    action at which the prediction of the SELECTED model is largest over
    the action set.  It asks the selected model once per action and the
    other model once. *)
Theorem DoubleQLearning_next_q_cross :
  forall (self : Agent (list Model)) (m0 m1 : Model) (mi : MDPInfo)
         (ns : State) (idx : Z) (w : World),
    approximator self = Some [m0; m1] ->
    mdp_info self = Some mi ->
    values (action_space mi) <> [] ->
    idx = 0%Z \/ idx = 1%Z ->
    let selected := if (idx =? 0)%Z then m0 else m1 in
    let other := if (idx =? 0)%Z then m1 else m0 in
    exists v a,
      DoubleQLearning_next_q self ns idx w
      = Ok (predict other (ns, a),
            add_calls
              (CPredict (Some (1 - idx)%Z) (ns, a)
               :: rev (predictions (Some idx) ns (values (action_space mi))))
              w) /\
      is_max_at selected ns (values (action_space mi)) v a.
Proof.
  intros self m0 m1 mi ns idx w Hapx Hmi Hne Hidx.
  exact (DoubleQLearning_next_q_spec self m0 m1 mi ns idx w Hapx Hmi Hne Hidx).
Qed.

(** C7.  For an agent with a policy and an approximator,
    [SARSA._next_q(next_state)] draws [a] from the policy at
    [next_state], leaves [a] in the attribute [_next_action] and returns
    the prediction at [(next_state, a)], asking the approximator for that
    one prediction only.  Whenever some action of the action space has a
    larger prediction than the drawn one (the policy was not greedy
    there), the value returned is strictly below the maximum that
    [QLearning._next_q] returns at the same state. *)
Theorem SARSA_next_q_on_policy :
  forall (self : Agent Model) (pol : Policy) (m : Model) (ns : State)
         (w : World),
    policy self = Some pol ->
    approximator self = Some m ->
    let a := fst (policy_draw pol m ns (rng w)) in
    let g := snd (policy_draw pol m ns (rng w)) in
    SARSA_next_q self ns w
    = Ok ((predict m (ns, a), set_next_action self (Some a)),
          {| schedules := schedules w; next_loc := next_loc w; rng := g;
             calls := CPredict None (ns, a) :: calls w |}) /\
    _next_action (set_next_action self (Some a)) = Some a /\
    forall (mi : MDPInfo) (b : Action) (w0 : World),
      mdp_info self = Some mi ->
      In b (values (action_space mi)) ->
      predict m (ns, a) < predict m (ns, b) ->
      exists max_q w1,
        QLearning_next_q self ns w0 = Ok ((max_q, self), w1) /\
        predict m (ns, a) < max_q.
Proof.
  intros self pol m ns w Hpol Hapx a g. split; [|split].
  - unfold SARSA_next_q, draw_action, bind, getattr, ret.
    rewrite Hpol, Hapx. cbn.
    subst a g. destruct (policy_draw pol m ns (rng w)) as [a g]. cbn.
    rewrite Hapx. reflexivity.
  - reflexivity.
  - intros mi b w0 Hmi Hb Hlt.
    unfold QLearning_next_q, bind, getattr, ret. rewrite Hapx, Hmi.
    assert (Hne : values (action_space mi) <> []).
    { intros E. rewrite E in Hb. contradiction. }
    destruct (max_QA_spec None ns false m _ w0 Hne) as (v & c & E & Hmax).
    rewrite E. exists v. eexists. split; [reflexivity|].
    destruct Hmax as (_ & _ & Hle). specialize (Hle b Hb). lra.
Qed.

End Resolvers.

Section Updates.

Context {C : Collaborators}.

(** One call of [TD.fit], whatever the resolver is *)
Lemma TD_fit_spec :
  forall (_next_q : Resolver) (self self1 : Agent Model)
         (ds : list Transition) (t : Transition) (m m1 : Model) (l : nat)
         (mi : MDPInfo) (prm : Params) (fp : FitParams) (q_next : R)
         (w w1 : World),
    approximator self = Some m ->
    (if absorbing t
     then (q_next, self1, w1)
          = (0, self, log (CPredict None (state t, action t)) w)
     else _next_q self (next_state t)
            (log (CPredict None (state t, action t)) w)
          = Ok ((q_next, self1), w1)) ->
    learning_rate self1 = Some (LRone l) ->
    mdp_info self1 = Some mi ->
    approximator self1 = Some m1 ->
    params self1 = Some prm ->
    fit_params prm = Some fp ->
    let sa := (state t, action t) in
    let q_current := predict m sa in
    let alpha := fst (rate (schedules w1 l) sa) in
    let q_new :=
      q_current + alpha * (reward t + gamma mi * q_next - q_current) in
    exists w2,
      TD_fit _next_q self (ds ++ [t]) 1 w
      = Ok (set_approximator self1 (Some (model_fit m1 sa q_new fp)), w2) /\
      calls w2 = CFit None sa q_new :: CRate l sa :: calls w1 /\
      schedules w2 l = snd (rate (schedules w1 l) sa) /\
      (absorbing t = true -> (forall k, predict m k = 0) ->
       q_new = alpha * reward t).
Proof.
  intros nq self self1 ds t m m1 l mi prm fp q_next w w1
    Hapx Hnext Hlr Hmi Hapx1 Hprm Hfp sa q_current alpha q_new.
  unfold TD_fit, bind, assert, lift, getattr, getitem, ret.
  rewrite py_index_last. cbn -[py_index].
  rewrite Hapx. unfold call_predict.
  assert (Hres :
    (if negb (absorbing t)
     then nq self (next_state t)
     else fun w0 : World => Ok (0, self, w0))
      (log (CPredict None (state t, action t)) w)
    = Ok (q_next, self1, w1)).
  { destruct (absorbing t); cbn; [now rewrite Hnext|exact Hnext]. }
  rewrite Hres. rewrite Hlr. unfold call_learning_rate, call_rate.
  fold sa. subst alpha.
  destruct (rate (schedules w1 l) sa) as [alpha s'] eqn:Er. cbn [fst snd] in *.
  rewrite Hmi, Hapx1, Hprm, Hfp. unfold call_fit, log. cbn.
  eexists. split; [reflexivity|]. cbn. split; [reflexivity|].
  split; [now rewrite Nat.eqb_refl|].
  intros Habs Hzero. subst q_new q_current.
  rewrite Habs in Hnext. inversion Hnext; subst.
  rewrite Hzero. lra.
Qed.

(** C3.  With [n_fit_iterations = 1], [TD.fit] on a dataset that ends
    with the transition [t] uses nothing of the dataset but [t]: it asks
    the approximator for [q_current] at [(state, action)], takes [q_next]
    to be [0] when [t] is absorbing and the value of the resolver
    [_next_q(next_state)] otherwise, asks the schedule for [alpha] at
    [(state, action)] and calls [fit] of the approximator at
    [(state, action)] with
    [q_current + alpha * (reward + gamma * q_next - q_current)].  When [t]
    is absorbing and the approximator predicts [0] everywhere, that
    target is [alpha * reward]. *)
Theorem TD_fit_last_transition :
  forall (_next_q : Resolver) (self self1 : Agent Model)
         (ds : list Transition) (t : Transition) (m m1 : Model) (l : nat)
         (mi : MDPInfo) (prm : Params) (fp : FitParams) (q_next : R)
         (w w1 : World),
    approximator self = Some m ->
    (if absorbing t
     then (q_next, self1, w1)
          = (0, self, log (CPredict None (state t, action t)) w)
     else _next_q self (next_state t)
            (log (CPredict None (state t, action t)) w)
          = Ok ((q_next, self1), w1)) ->
    learning_rate self1 = Some (LRone l) ->
    mdp_info self1 = Some mi ->
    approximator self1 = Some m1 ->
    params self1 = Some prm ->
    fit_params prm = Some fp ->
    let sa := (state t, action t) in
    let q_current := predict m sa in
    let alpha := fst (rate (schedules w1 l) sa) in
    let q_new :=
      q_current + alpha * (reward t + gamma mi * q_next - q_current) in
    exists w2,
      TD_fit _next_q self (ds ++ [t]) 1 w
      = Ok (set_approximator self1 (Some (model_fit m1 sa q_new fp)), w2) /\
      calls w2 = CFit None sa q_new :: CRate l sa :: calls w1 /\
      schedules w2 l = snd (rate (schedules w1 l) sa) /\
      (absorbing t = true -> (forall k, predict m k = 0) ->
       q_new = alpha * reward t).
Proof.
  intros nq self self1 ds t m m1 l mi prm fp q_next w w1.
  exact (TD_fit_spec nq self self1 ds t m m1 l mi prm fp q_next w w1).
Qed.

(** X13.  [QLearning.fit] returns on every dataset with a last
    transition, for an agent with its attributes in place, provided the
    action set is not empty when that transition is not absorbing.  It
    changes no attribute but [approximator], which is fitted at the key
    of the transition with
    [q_current + alpha * (reward + gamma * q_next - q_current)], where
    [q_next] is 0 for an absorbing transition and the largest prediction
    over the action space at the next state otherwise. *)
Lemma QLearning_fit_returns (self : Agent Model) (ds : list Transition)
    (t : Transition) (m : Model) (l : nat) (mi : MDPInfo) (prm : Params)
    (fp : FitParams) (w : World) :
  approximator self = Some m ->
  learning_rate self = Some (LRone l) ->
  mdp_info self = Some mi ->
  params self = Some prm ->
  fit_params prm = Some fp ->
  absorbing t = true \/ values (action_space mi) <> [] ->
  let sa := (state t, action t) in
  let alpha := fst (rate (schedules w l) sa) in
  exists q_next w2,
    QLearning_fit self (ds ++ [t]) 1 w
    = Ok (set_approximator self
            (Some (model_fit m sa
                     (predict m sa
                      + alpha * (reward t + gamma mi * q_next - predict m sa))
                     fp)), w2) /\
    (absorbing t = true -> q_next = 0) /\
    (absorbing t = false ->
     exists a, is_max_at m (next_state t) (values (action_space mi)) q_next a).
Proof.
  intros Hapx Hlr Hmi Hprm Hfp Hok sa alpha.
  set (w0 := log (CPredict None sa) w).
  assert (Hnext : exists q_next w1,
    (if absorbing t
     then (q_next, self, w1) = (0, self, w0)
     else QLearning_next_q self (next_state t) w0 = Ok ((q_next, self), w1)) /\
    schedules w1 = schedules w /\
    (absorbing t = true -> q_next = 0) /\
    (absorbing t = false ->
     exists a, is_max_at m (next_state t) (values (action_space mi)) q_next a)).
  { destruct (absorbing t) eqn:Habs.
    - exists 0, w0. repeat split; auto. discriminate.
    - destruct Hok as [Hok|Hne]; [discriminate|].
      destruct (max_QA_spec None (next_state t) false m _ w0 Hne)
        as (v & a & E & Hmax).
      exists v. eexists. split.
      + unfold QLearning_next_q.
        rewrite (bind_ok _ _ _ _ _ (getattr_some _ _ _ Hapx)).
        rewrite (bind_ok _ _ _ _ _ (getattr_some _ _ _ Hmi)).
        erewrite bind_ok by exact E. reflexivity.
      + split; [reflexivity|]. split; [discriminate|].
        intros _. exists a. exact Hmax. }
  destruct Hnext as (q_next & w1 & Hn & Hs & H0 & H1).
  destruct (TD_fit_spec QLearning_next_q self self ds t m m l mi prm fp
              q_next w w1 Hapx Hn Hlr Hmi Hapx Hprm Hfp)
    as (w2 & E & _).
  exists q_next, w2. rewrite Hs in E. split; [exact E|]. split; assumption.
Qed.

(** X14.  [SARSA.fit] returns on every dataset with a last transition,
    for an agent with its attributes in place, an empty action space
    included.  For a transition that is not absorbing the bootstrap
    value is the prediction for the action the policy draws at the next
    state, and that action is left in [_next_action]; for an absorbing
    transition the bootstrap value is 0 and [_next_action] is not
    assigned.  No other attribute but [approximator] changes. *)
Lemma SARSA_fit_returns (self : Agent Model) (ds : list Transition)
    (t : Transition) (m : Model) (pol : Policy) (l : nat) (mi : MDPInfo)
    (prm : Params) (fp : FitParams) (w : World) :
  approximator self = Some m ->
  policy self = Some pol ->
  learning_rate self = Some (LRone l) ->
  mdp_info self = Some mi ->
  params self = Some prm ->
  fit_params prm = Some fp ->
  let sa := (state t, action t) in
  let alpha := fst (rate (schedules w l) sa) in
  let a := fst (policy_draw pol m (next_state t) (rng w)) in
  let q_next := if absorbing t then 0 else predict m (next_state t, a) in
  let self1 := if absorbing t then self else set_next_action self (Some a) in
  exists w2,
    SARSA_fit self (ds ++ [t]) 1 w
    = Ok (set_approximator self1
            (Some (model_fit m sa
                     (predict m sa
                      + alpha * (reward t + gamma mi * q_next - predict m sa))
                     fp)), w2).
Proof.
  intros Hapx Hpol Hlr Hmi Hprm Hfp sa alpha a q_next self1.
  set (w0 := log (CPredict None sa) w).
  assert (Hnext : exists w1,
    (if absorbing t
     then (q_next, self1, w1) = (0, self, w0)
     else SARSA_next_q self (next_state t) w0 = Ok ((q_next, self1), w1)) /\
    schedules w1 = schedules w).
  { subst q_next self1 a.
    destruct (policy_draw pol m (next_state t) (rng w)) as [b g] eqn:Ep.
    cbn [fst]. destruct (absorbing t).
    - exists w0. split; reflexivity.
    - eexists. split.
      + unfold SARSA_next_q, draw_action, bind, getattr, ret.
        rewrite Hpol, Hapx. cbn. rewrite Ep. cbn.
        rewrite Hapx. reflexivity.
      + reflexivity. }
  destruct Hnext as (w1 & Hn & Hs).
  assert (H1 : approximator self1 = Some m /\
               learning_rate self1 = Some (LRone l) /\
               mdp_info self1 = Some mi /\ params self1 = Some prm).
  { subst self1. destruct (absorbing t); cbn; auto. }
  destruct H1 as (Ha1 & Hl1 & Hm1 & Hp1).
  destruct (TD_fit_spec SARSA_next_q self self1 ds t m m l mi prm fp
              q_next w w1 Hapx Hn Hl1 Hm1 Ha1 Hp1 Hfp)
    as (w2 & E & _).
  exists w2. rewrite Hs in E. exact E.
Qed.

Lemma occurring_step (l : list nat) (s len : nat) :
  occurring l s (S len)
  = (if (count_occ Nat.eq_dec l s =? 0)%nat then []
     else [(s, count_occ Nat.eq_dec l s)]) ++ occurring l (S s) len.
Proof. reflexivity. Qed.

Lemma insert_count_below (l : list nat) (x : nat) (len s : nat) :
  (x < s)%nat ->
  insert_count x (occurring l s len) = (x, 1%nat) :: occurring l s len.
Proof.
  revert s. induction len as [|len IH]; intros s Hx; [reflexivity|].
  rewrite occurring_step.
  destruct (count_occ Nat.eq_dec l s =? 0)%nat.
  - cbn [app]. apply IH. lia.
  - cbn [app insert_count].
    replace (x <? s)%nat with true by (symmetry; apply Nat.ltb_lt; lia).
    reflexivity.
Qed.

Lemma count_occ_snoc (l : list nat) (x k : nat) :
  count_occ Nat.eq_dec (l ++ [x]) k
  = (count_occ Nat.eq_dec l k + if Nat.eq_dec x k then 1 else 0)%nat.
Proof.
  rewrite count_occ_app. cbn. destruct (Nat.eq_dec x k); reflexivity.
Qed.

Lemma occurring_snoc_outside (l : list nat) (x : nat) (len s : nat) :
  (x < s)%nat ->
  occurring (l ++ [x]) s len = occurring l s len.
Proof.
  revert s. induction len as [|len IH]; intros s Hx; [reflexivity|].
  rewrite !occurring_step, IH by lia.
  rewrite count_occ_snoc. destruct (Nat.eq_dec x s); [lia|].
  now rewrite Nat.add_0_r.
Qed.

Lemma insert_count_occurring (l : list nat) (x : nat) (len s : nat) :
  (s <= x < s + len)%nat ->
  insert_count x (occurring l s len) = occurring (l ++ [x]) s len.
Proof.
  revert s. induction len as [|len IH]; intros s Hx; [lia|].
  rewrite !occurring_step. rewrite count_occ_snoc.
  destruct (Nat.eq_dec x s) as [->|Hne].
  - rewrite occurring_snoc_outside by lia.
    destruct (count_occ Nat.eq_dec l s) as [|c] eqn:Ec.
    + cbn [Nat.eqb app Nat.add]. apply insert_count_below. lia.
    + replace (S c + 1 =? 0)%nat with false
        by (symmetry; apply Nat.eqb_neq; lia).
      cbn [Nat.eqb app insert_count].
      rewrite Nat.ltb_irrefl, Nat.eqb_refl.
      now replace (S c + 1)%nat with (S (S c)) by lia.
  - rewrite Nat.add_0_r.
    destruct (count_occ Nat.eq_dec l s =? 0)%nat.
    + cbn [app]. apply IH. lia.
    + cbn [app insert_count].
      replace (x <? s)%nat with false by (symmetry; apply Nat.ltb_ge; lia).
      replace (x =? s)%nat with false by (symmetry; now apply Nat.eqb_neq).
      f_equal. apply IH. lia.
Qed.

Lemma occurring_nil (len s : nat) : occurring [] s len = [].
Proof.
  revert s. induction len as [|len IH]; intros s; [reflexivity|].
  rewrite occurring_step. cbn. apply IH.
Qed.

(** [np.unique] lists the values that occur, in increasing order, with
    their counts. *)
Lemma np_unique_occurring (n : nat) (l : list nat) :
  Forall (fun i => (i < n)%nat) l ->
  np_unique l = occurring l 0 n.
Proof.
  unfold np_unique. induction l as [|x l IH] using rev_ind; intros Hl.
  - cbn. now rewrite occurring_nil.
  - apply Forall_app in Hl. destruct Hl as [Hl Hx].
    inversion Hx as [|? ? Hxn _]; subst.
    rewrite fold_left_app. cbn [fold_left]. rewrite IH by exact Hl.
    apply insert_count_occurring. lia.
Qed.

Lemma occurring_all (l : list nat) (len s : nat) :
  (forall i, (s <= i < s + len)%nat -> In i l) ->
  occurring l s len
  = map (fun k => (k, count_occ Nat.eq_dec l k)) (seq s len).
Proof.
  revert s. induction len as [|len IH]; intros s Hall; [reflexivity|].
  rewrite occurring_step. cbn [seq map].
  assert (Hs : (count_occ Nat.eq_dec l s > 0)%nat).
  { apply count_occ_In. apply Hall. lia. }
  replace (count_occ Nat.eq_dec l s =? 0)%nat with false
    by (symmetry; apply Nat.eqb_neq; lia).
  cbn [app]. f_equal. apply IH. intros i Hi. apply Hall. lia.
Qed.

Lemma occurring_length (l : list nat) (len s : nat) :
  (length (occurring l s len) <= len)%nat /\
  ((exists i, (s <= i < s + len)%nat /\ ~ In i l) ->
   (length (occurring l s len) < len)%nat).
Proof.
  revert s. induction len as [|len IH]; intros s.
  - split; [cbn; lia|]. intros (i & Hi & _). lia.
  - rewrite occurring_step, length_app.
    destruct (IH (S s)) as [Hle Hlt].
    destruct (count_occ Nat.eq_dec l s =? 0)%nat eqn:E; cbn [length].
    + split; lia.
    + split; [lia|]. intros (i & Hi & Hni).
      assert (Hne : i <> s).
      { intros ->. apply Nat.eqb_neq in E.
        apply (count_occ_not_In Nat.eq_dec) in Hni. contradiction. }
      assert ((length (occurring l (S s) len) < len)%nat); [|lia].
      apply Hlt. exists i. split; [lia|exact Hni].
Qed.

(** The lengths [np.dot] is given differ as soon as some position is the
    arg-max of no sample row. *)
Lemma np_dot_unaligned (u v : list R) :
  length u <> length v -> np_dot u v = Raise ValueError.
Proof.
  intros H. unfold np_dot. apply Nat.eqb_neq in H. now rewrite H.
Qed.

Lemma np_dot_aligned (u v : list R) :
  length u = length v ->
  np_dot u v
  = Ok (fold_right Rplus 0 (map (fun p => fst p * snd p) (combine u v))).
Proof.
  intros H. unfold np_dot. apply Nat.eqb_eq in H. now rewrite H.
Qed.

(** Reading a run backwards: what a computation that returned went
    through *)
Lemma bind_inv {A B} (c : M A) (k : A -> M B) (w : World)
    (r : B * World) :
  bind c k w = Ok r -> exists a w1, c w = Ok (a, w1) /\ k a w1 = Ok r.
Proof.
  unfold bind. destruct (c w) as [[a w1]|e]; [|discriminate].
  intros H. now exists a, w1.
Qed.

Lemma getattr_inv {A} (field : option A) (a : A) (w w1 : World) :
  getattr field w = Ok (a, w1) -> field = Some a /\ w1 = w.
Proof.
  destruct field; cbn; [|discriminate]. intros H. inversion H. auto.
Qed.

Lemma getitem_inv {A} (entry : option A) (a : A) (w w1 : World) :
  getitem entry w = Ok (a, w1) -> entry = Some a /\ w1 = w.
Proof.
  destruct entry; cbn; [|discriminate]. intros H. inversion H. auto.
Qed.

Lemma lift_inv {A} (r : result A) (a : A) (w w1 : World) :
  lift r w = Ok (a, w1) -> r = Ok a /\ w1 = w.
Proof.
  destruct r; cbn; [|discriminate]. intros H. inversion H. auto.
Qed.

Lemma assert_inv (b : bool) (u : unit) (w w1 : World) :
  assert b w = Ok (u, w1) -> b = true /\ w1 = w.
Proof.
  destruct b; cbn; [|discriminate]. intros H. inversion H. auto.
Qed.

(** *** Subscripts with a Python list *)

Lemma np_axis_cases (n : nat) (i : Z) :
  (exists k, np_axis n i = Ok k) \/ np_axis n i = Raise IndexError.
Proof.
  unfold np_axis.
  destruct ((0 <=? (if (i <? 0)%Z then (Z.of_nat n + i)%Z else i))
            && ((if (i <? 0)%Z then (Z.of_nat n + i)%Z else i) <? Z.of_nat n))%Z;
    [left; eexists; reflexivity|right; reflexivity].
Qed.

(** A list of two items selects two rows, or is refused. *)
Lemma select_rows_pair (t : Table) (x y : option Z) :
  (exists i j, select_rows t [x; y] = Ok [i; j]) \/
  select_rows t [x; y] = Raise IndexError.
Proof.
  unfold select_rows, index_array.
  destruct x as [x|]; [|right; reflexivity].
  destruct y as [y|]; [|right; reflexivity].
  cbn [mapR as_index and_then].
  destruct (np_axis_cases (rows t) x) as [(i & ->)| ->];
    [|right; reflexivity].
  destruct (np_axis_cases (rows t) y) as [(j & ->)| ->];
    [|right; reflexivity].
  left. exists i, j. reflexivity.
Qed.

Lemma select_rows_refused (t : Table) (x y : option Z) :
  x = None \/ y = None -> select_rows t [x; y] = Raise IndexError.
Proof.
  intros [-> | ->]; [reflexivity|].
  unfold select_rows, index_array. destruct x; reflexivity.
Qed.

(** Which rows a list selects depends on the shape of the array only. *)
Lemma select_rows_shape (t t' : Table) (items : list (option Z)) :
  tshape t' = tshape t -> select_rows t' items = select_rows t items.
Proof. intros H. unfold select_rows, rows. now rewrite H. Qed.

(** Two rows are selected whole: twice as many entries as the array
    has columns. *)
Lemma cells_pair_length (t : Table) (i j : nat) :
  length (cells t [i; j]) = (2 * cols t)%nat.
Proof.
  unfold cells. cbn [flat_map].
  rewrite !length_app, !length_map, length_seq. cbn. lia.
Qed.

Lemma stores_shape (cvs : list ((nat * nat) * R)) (t : Table) :
  tshape (fold_left (fun t' cv => store t' (fst cv) (snd cv)) cvs t)
  = tshape t.
Proof.
  revert t. induction cvs as [|cv cvs IH]; intros t; [reflexivity|].
  cbn [fold_left]. now rewrite IH.
Qed.

(** [t[[x, y]]] is an array of [2 * cols t] entries, or is refused. *)
Lemma take_rows_pair (t : Table) (x y : option Z) :
  (exists v, take_rows t [x; y] = Ok v /\ length v = (2 * cols t)%nat) \/
  take_rows t [x; y] = Raise IndexError.
Proof.
  unfold take_rows.
  destruct (select_rows_pair t x y) as [(i & j & ->)| ->];
    [|right; reflexivity].
  left. eexists. split; [reflexivity|].
  now rewrite length_map, cells_pair_length.
Qed.

(** Storing as many values as were read succeeds and keeps the shape. *)
Lemma put_rows_pair (t : Table) (x y : option Z) (v0 v : list R) :
  take_rows t [x; y] = Ok v0 ->
  length v = length v0 ->
  exists t', put_rows t [x; y] v = Ok t' /\ tshape t' = tshape t.
Proof.
  unfold take_rows, put_rows. intros H Hlen.
  destruct (select_rows t [x; y]) as [rs|e]; [|discriminate].
  cbn [and_then] in *. inversion H as [Hv]. clear H.
  rewrite Hlen, <- Hv, length_map, Nat.eqb_refl.
  eexists. split; [reflexivity|]. apply stores_shape.
Qed.

Lemma put_rows_shape (t t' : Table) (items : list (option Z)) (v : list R) :
  put_rows t items v = Ok t' -> tshape t' = tshape t.
Proof.
  unfold put_rows. destruct (select_rows t items) as [rs|e]; [|discriminate].
  cbn [and_then]. destruct (length v =? length (cells t rs))%nat;
    [|discriminate].
  intros H. inversion H. apply stores_shape.
Qed.

Lemma take_rows_shape (t t' : Table) (x y : option Z) (v : list R) :
  tshape t' = tshape t ->
  take_rows t' [x; y] = Ok v -> length v = (2 * cols t)%nat.
Proof.
  intros Hs H.
  destruct (take_rows_pair t' x y) as [(v' & E & Hlen)|E];
    rewrite E in H; [|discriminate].
  inversion H. subst v'. rewrite Hlen. unfold cols. now rewrite Hs.
Qed.

(** An array of two entries or more has no truth value. *)
Lemma np_truth_several (v : list bool) :
  (2 <= length v)%nat -> np_truth v = Raise ValueError.
Proof.
  destruct v as [|a [|b v]]; cbn; intros H; try lia. reflexivity.
Qed.

(** [t[[x, y], j]] is an array of two entries, or is refused. *)
Lemma take_entries_pair (t : Table) (x y j : option Z) :
  (exists a b, take_entries t [x; y] j = Ok [a; b]) \/
  take_entries t [x; y] j = Raise IndexError.
Proof.
  unfold take_entries, index_array.
  destruct x as [x|]; [|right; reflexivity].
  destruct y as [y|]; [|right; reflexivity].
  destruct j as [j|]; [|right; reflexivity].
  cbn [mapR as_index and_then].
  destruct (np_axis_cases (rows t) x) as [(i & ->)| ->];
    [|right; reflexivity].
  destruct (np_axis_cases (rows t) y) as [(k & ->)| ->];
    [|right; reflexivity].
  cbn [and_then].
  destruct (np_axis_cases (cols t) j) as [(c & ->)| ->];
    [|right; reflexivity].
  left. eexists. eexists. reflexivity.
Qed.

(** *** The resolver of Weighted Q-Learning *)

(** The loop of [_next_q] does not get past its first action: the
    subscript of [self._sigma] is refused, or it selects two entries,
    which the slot [sigmas[0, i]] does not take. *)
Lemma fill_rows_raises (self : Agent Model) (m : Model) (sg : Table)
    (ns : State) (i : nat) (a : Action) (rest : list Action)
    (means sigmas : list R) (w : World) :
  approximator self = Some m ->
  _sigma self = Some sg ->
  exists e, (e = IndexError \/ e = ValueError) /\
            fill_rows self ns i (a :: rest) means sigmas w = Raise e.
Proof.
  intros Hapx Hsg. cbn [fill_rows].
  rewrite (bind_ok _ _ _ _ _ (getattr_some _ _ _ Hapx)).
  erewrite bind_ok by reflexivity.
  unfold set_at.
  destruct (i <? length means)%nat;
    [|exists IndexError; split; [now left|reflexivity]].
  erewrite bind_ok by reflexivity.
  rewrite (bind_ok _ _ _ _ _ (getattr_some _ _ _ Hsg)).
  destruct (take_entries_pair sg (state_index ns) (action_index a)
              (action_index a)) as [(x & y & E)|E].
  - erewrite bind_ok by (rewrite E; reflexivity).
    unfold set_at_array.
    destruct (i <? length sigmas)%nat.
    + exists ValueError. split; [now right|reflexivity].
    + exists IndexError. split; [now left|reflexivity].
  - exists IndexError. split; [now left|].
    unfold bind at 1. unfold lift at 1. now rewrite E.
Qed.

(** With an action to go through, [_next_q] raises in its loop, whatever
    [sampling] and [precision] are. *)
Lemma WeightedQLearning_next_q_raises (self : Agent Model) (mi : MDPInfo)
    (m : Model) (sg : Table) (a : Action) (rest : list Action)
    (ns : State) (w : World) :
  mdp_info self = Some mi ->
  approximator self = Some m ->
  _sigma self = Some sg ->
  values (action_space mi) = a :: rest ->
  exists e, (e = IndexError \/ e = ValueError) /\
            WeightedQLearning_next_q self ns w = Raise e.
Proof.
  intros Hmi Hapx Hsg Hv. unfold WeightedQLearning_next_q.
  rewrite (bind_ok _ _ _ _ _ (getattr_some _ _ _ Hmi)).
  rewrite (bind_ok _ _ _ _ _ (getattr_some _ _ _ Hmi)).
  rewrite Hv.
  destruct (fill_rows_raises self m sg ns 0 a rest
              (repeat 0 (size (action_space mi)))
              (repeat 0 (length (repeat 0 (size (action_space mi))))) w
              Hapx Hsg) as (e & He & E).
  exists e. split; [exact He|]. unfold bind at 1. now rewrite E.
Qed.

(** [fit] on a transition that is not absorbing raises with [_next_q]. *)
Lemma WeightedQLearning_fit_raises_with_next_q (self : Agent Model)
    (mi : MDPInfo) (m : Model) (sg : Table) (a : Action)
    (rest : list Action) (ds : list Transition) (t : Transition)
    (w : World) :
  mdp_info self = Some mi ->
  approximator self = Some m ->
  _sigma self = Some sg ->
  values (action_space mi) = a :: rest ->
  absorbing t = false ->
  exists e, (e = IndexError \/ e = ValueError) /\
            WeightedQLearning_fit self (ds ++ [t]) 1 w = Raise e.
Proof.
  intros Hmi Hapx Hsg Hv Habs. unfold WeightedQLearning_fit.
  rewrite (bind_ok _ _ w w tt) by reflexivity.
  erewrite bind_ok by (apply lift_ok, py_index_last).
  erewrite bind_ok by (apply lift_ok; reflexivity). cbv beta iota zeta.
  rewrite (bind_ok _ _ _ _ _ (getattr_some _ _ _ Hapx)).
  erewrite bind_ok by reflexivity.
  rewrite Habs. cbn [negb].
  destruct (WeightedQLearning_next_q_raises self mi m sg a rest
              (next_state t) (log (CPredict None (state t, action t)) w)
              Hmi Hapx Hsg Hv) as (e & He & E).
  exists e. split; [exact He|]. unfold bind at 1. now rewrite E.
Qed.

(** Without an action the loop is skipped, and the branch of
    [sampling] is reached. *)
Lemma WeightedQLearning_next_q_no_action (self : Agent Model)
    (mi : MDPInfo) (ns : State) (w : World) :
  mdp_info self = Some mi ->
  values (action_space mi) = [] ->
  (sampling self = Some false ->
   WeightedQLearning_next_q self ns w = Raise NotImplementedError) /\
  (forall x, sampling self = Some true ->
             precision self = Some (PyFloat x) ->
             WeightedQLearning_next_q self ns w = Raise TypeError).
Proof.
  intros Hmi Hv. split.
  - intros Hsmp. unfold WeightedQLearning_next_q.
    rewrite (bind_ok _ _ _ _ _ (getattr_some _ _ _ Hmi)).
    rewrite (bind_ok _ _ _ _ _ (getattr_some _ _ _ Hmi)).
    rewrite Hv. cbn [fill_rows].
    erewrite bind_ok by reflexivity. cbv beta iota zeta.
    rewrite (bind_ok _ _ _ _ _ (getattr_some _ _ _ Hsmp)).
    reflexivity.
  - intros x Hsmp Hprec. unfold WeightedQLearning_next_q.
    rewrite (bind_ok _ _ _ _ _ (getattr_some _ _ _ Hmi)).
    rewrite (bind_ok _ _ _ _ _ (getattr_some _ _ _ Hmi)).
    rewrite Hv. cbn [fill_rows].
    erewrite bind_ok by reflexivity. cbv beta iota zeta.
    rewrite (bind_ok _ _ _ _ _ (getattr_some _ _ _ Hsmp)).
    unfold bind at 1.
    rewrite (bind_ok _ _ _ _ _ (getattr_some _ _ _ Hprec)).
    reflexivity.
Qed.

(** The weights of lines 180 to 188 taken alone: [np.unique] counts the
    positions that occur, so the vector of weights has an entry per
    action, and [np.dot] a result, only when every position is the
    arg-max of some sample row. *)
Lemma weights_aligned_or_raises (max_idx : list nat) (n : nat)
    (prec : Number) (qs : list R) :
  length qs = n ->
  Forall (fun i => (i < n)%nat) max_idx ->
  let w := map (fun c => INR c / number_value prec)
             (map snd (np_unique max_idx)) in
  ((forall i, (i < n)%nat -> In i max_idx) ->
   np_dot w qs
   = Ok (fold_right Rplus 0
           (map (fun p => fst p * snd p)
              (combine (spec_weights max_idx n (number_value prec)) qs)))) /\
  ((exists i, (i < n)%nat /\ ~ In i max_idx) ->
   np_dot w qs = Raise ValueError).
Proof.
  intros Hlen Hbound w. subst w.
  rewrite (np_unique_occurring n) by exact Hbound.
  split.
  - intros Hall. rewrite occurring_all by (intros i Hi; apply Hall; lia).
    replace (map (fun c => INR c / number_value prec)
               (map snd
                  (map (fun k => (k, count_occ Nat.eq_dec max_idx k))
                     (seq 0 n))))
      with (spec_weights max_idx n (number_value prec))
      by (unfold spec_weights; now rewrite !map_map).
    rewrite np_dot_aligned; [reflexivity|].
    unfold spec_weights. now rewrite length_map, length_seq.
  - intros (i & Hi & Hni).
    rewrite np_dot_unaligned; [reflexivity|].
    rewrite !length_map.
    destruct (occurring_length max_idx n 0) as [_ Hlt].
    assert ((length (occurring max_idx 0 n) < n)%nat); [|lia].
    apply Hlt. exists i. split; [lia|exact Hni].
Qed.

(** *** The update of Weighted Q-Learning *)

Lemma take_rows_same_shape (t t' : Table) (x y : option Z) (v : list R) :
  tshape t' = tshape t ->
  take_rows t [x; y] = Ok v ->
  exists v', take_rows t' [x; y] = Ok v' /\ length v' = (2 * cols t)%nat.
Proof.
  intros Hs H. unfold take_rows in *.
  rewrite (select_rows_shape t t' _ Hs).
  destruct (select_rows_pair t x y) as [(i & j & E)|E]; rewrite E in *;
    [|discriminate].
  eexists. split; [reflexivity|].
  rewrite length_map, cells_pair_length. unfold cols. now rewrite Hs.
Qed.

(** One step back in a run that returned *)
Local Tactic Notation "run_back" hyp(H) ident(a) ident(w') ident(E) :=
  apply bind_inv in H; destruct H as (a & w' & E & H); cbv beta zeta in H.

(** [fit] never returns: when the run gets as far as line 160, the
    condition of the [if] is an array of [2 * cols] entries, which has no
    truth value. *)
Lemma WeightedQLearning_fit_never_returns (self : Agent Model)
    (ds : list Transition) (n : Z) (w : World) (r : Agent Model * World) :
  (forall nu, _n_updates self = Some nu -> (0 < cols nu)%nat) ->
  WeightedQLearning_fit self ds n w <> Ok r.
Proof.
  intros Hc H. unfold WeightedQLearning_fit in H.
  run_back H u w1 E1. run_back H t w2 E2. run_back H p w3 E3.
  destruct p as [[[[s a] rw] ns] ab]. cbv beta iota zeta in H.
  run_back H apx w4 E4. run_back H qc w5 E5. run_back H qn w6 E6.
  run_back H mi w7 E7. run_back H lr w8 E8. run_back H alpha w9 E9.
  run_back H apx2 w10 E10. run_back H prm w11 E11. run_back H fp w12 E12.
  run_back H apx3 w13 E13.
  run_back H nu w14 Hnu. apply getattr_inv in Hnu. destruct Hnu as [Hnu _].
  cbn [_n_updates set_approximator] in Hnu.
  run_back H v w15 Hv. apply lift_inv in Hv. destruct Hv as [Hv _].
  run_back H nu1 w16 Hput. apply lift_inv in Hput. destruct Hput as [Hput _].
  run_back H q2 w17 E17. run_back H v1 w18 E18. run_back H q2a w19 E19.
  run_back H v2 w20 E20. run_back H v3 w21 E21. run_back H q2b w22 E22.
  run_back H q2c w23 E23.
  run_back H nu2 w24 Hnu2. apply getattr_inv in Hnu2.
  destruct Hnu2 as [Hnu2 _]. cbn [_n_updates set_Q2 set_n_updates] in Hnu2.
  inversion Hnu2. subst nu2.
  run_back H v4 w25 Hv4. apply lift_inv in Hv4. destruct Hv4 as [Hv4 _].
  run_back H b w26 Hb. apply lift_inv in Hb. destruct Hb as [Hb _].
  apply put_rows_shape in Hput.
  pose proof (take_rows_shape nu nu1 _ _ _ Hput Hv4) as Hlen.
  specialize (Hc nu Hnu).
  rewrite np_truth_several in Hb; [discriminate|].
  rewrite length_map. lia.
Qed.

(** [fit] on an absorbing transition, with every attribute in place:
    the update of the statistics raises, [IndexError] when [_n_updates]
    or [_Q2] refuses the subscript [sa] and [ValueError], at the [if] of
    line 160, otherwise. *)
Lemma WeightedQLearning_fit_absorbing_raises (self : Agent Model)
    (ds : list Transition) (t : Transition) (m : Model) (l : nat)
    (mi : MDPInfo) (prm : Params) (fp : FitParams) (nu q2 : Table)
    (w : World) :
  approximator self = Some m ->
  learning_rate self = Some (LRone l) ->
  mdp_info self = Some mi ->
  params self = Some prm ->
  fit_params prm = Some fp ->
  _n_updates self = Some nu ->
  _Q2 self = Some q2 ->
  (0 < cols nu)%nat ->
  absorbing t = true ->
  let sa := [state_index (state t); action_index (action t)] in
  WeightedQLearning_fit self (ds ++ [t]) 1 w
  = Raise (match take_rows nu sa, take_rows q2 sa with
           | Ok _, Ok _ => ValueError
           | _, _ => IndexError
           end).
Proof.
  intros Hapx Hlr Hmi Hprm Hfp Hnu Hq2 Hc Habs sa.
  unfold WeightedQLearning_fit.
  rewrite (bind_ok _ _ w w tt) by reflexivity.
  erewrite bind_ok by (apply lift_ok, py_index_last).
  erewrite bind_ok by (apply lift_ok; reflexivity). cbv beta iota zeta.
  fold sa.
  rewrite (bind_ok _ _ _ _ _ (getattr_some _ _ _ Hapx)).
  erewrite bind_ok by reflexivity.
  rewrite Habs. cbn [negb]. erewrite bind_ok by reflexivity.
  rewrite (bind_ok _ _ _ _ _ (getattr_some _ _ _ Hmi)).
  rewrite (bind_ok _ _ _ _ _ (getattr_some _ _ _ Hlr)).
  unfold call_learning_rate.
  erewrite bind_ok by apply call_rate_spec.
  rewrite (bind_ok _ _ _ _ _ (getattr_some _ _ _ Hapx)).
  rewrite (bind_ok _ _ _ _ _ (getattr_some _ _ _ Hprm)).
  rewrite (bind_ok _ _ _ _ _ (getitem_some _ _ _ Hfp)).
  erewrite bind_ok by reflexivity.
  cbn [_n_updates set_approximator].
  rewrite (bind_ok _ _ _ _ _ (getattr_some _ _ _ Hnu)).
  destruct (take_rows_pair nu (state_index (state t))
              (action_index (action t))) as [(v & Ev & Hlen)|Ev];
    fold sa in Ev; rewrite Ev;
    [|unfold bind at 1; unfold lift at 1; reflexivity].
  erewrite bind_ok by (apply lift_ok; reflexivity).
  destruct (put_rows_pair nu _ _ v (map (fun x => x + 1) v) Ev
              (length_map _ _)) as (nu1 & Eput & Hsh).
  fold sa in Eput.
  erewrite bind_ok by (apply lift_ok; exact Eput).
  cbn [_Q2 set_n_updates set_approximator].
  rewrite (bind_ok _ _ _ _ _ (getattr_some _ _ _ Hq2)).
  destruct (take_rows_pair q2 (state_index (state t))
              (action_index (action t))) as [(v1 & Ev1 & Hlen1)|Ev1];
    fold sa in Ev1; rewrite Ev1;
    [|unfold bind at 1; unfold lift at 1; reflexivity].
  erewrite bind_ok by (apply lift_ok; reflexivity).
  rewrite (bind_ok _ _ _ _ _ (getattr_some _ _ _ Hq2)).
  erewrite bind_ok by (apply lift_ok; exact Ev1).
  unfold np_map2. rewrite Nat.eqb_refl.
  erewrite bind_ok by (apply lift_ok; reflexivity).
  rewrite (bind_ok _ _ _ _ _ (getattr_some _ _ _ Hq2)).
  match goal with
  | |- context [put_rows q2 sa ?x] =>
      destruct (put_rows_pair q2 _ _ v1 x Ev1) as (q2a & Eput2 & Hsh2)
  end.
  { now rewrite length_map, length_combine, Nat.min_id. }
  fold sa in Eput2.
  erewrite bind_ok by (apply lift_ok; exact Eput2).
  cbn [_n_updates set_Q2 set_n_updates].
  erewrite bind_ok by reflexivity.
  destruct (take_rows_same_shape nu nu1 _ _ v Hsh Ev) as (v4 & Ev4 & Hlen4).
  fold sa in Ev4.
  erewrite bind_ok by (apply lift_ok; exact Ev4).
  rewrite np_truth_several by (rewrite length_map; lia).
  reflexivity.
Qed.

(** C1.  [WeightedQLearning._next_q] does not return the weighted sum of
    the predictions.  A program that builds the agent with its
    constructor and then asks for the value at a next state stops in the
    constructor, with [AttributeError].  On an instance that was given
    the attributes of the class by other means, with at least one action
    to go through, the resolver raises in its loop at the first action,
    whatever [sampling] and [precision] are: the subscript
    [self._sigma[sa_n, a]] is refused ([IndexError]) or selects two
    entries, which the slot [sigmas[0, i]] cannot hold ([ValueError]).
    No sample is drawn and no weight is computed. *)
Theorem WeightedQLearning_next_q_raises_in_loop :
  (forall (approximator_ : Model) (policy_ : Policy) (params_ : Params)
          (ns : State) (w : World),
     bind (new_WeightedQLearning approximator_ policy_ params_)
       (fun self => WeightedQLearning_next_q self ns) w
     = Raise AttributeError) /\
  (forall (self : Agent Model) (mi : MDPInfo) (m : Model) (sg : Table)
          (a : Action) (rest : list Action) (ns : State) (w : World),
     mdp_info self = Some mi ->
     approximator self = Some m ->
     _sigma self = Some sg ->
     values (action_space mi) = a :: rest ->
     exists e, (e = IndexError \/ e = ValueError) /\
               WeightedQLearning_next_q self ns w = Raise e).
Proof.
  split; [intros; reflexivity|].
  intros self mi m sg a rest ns w.
  exact (WeightedQLearning_next_q_raises self mi m sg a rest ns w).
Qed.

(** C9.  With [sampling] disabled the resolver raises, but the error is
    [NotImplementedError] only when there is no action at all.  A
    program that builds the agent with [sampling=False] stops in the
    constructor, with [AttributeError].  On an instance that was given
    the attributes by other means and whose attribute [sampling] is
    [False]: with at least one action, [_next_q], and every call of [fit]
    with [n_fit_iterations = 1] on a dataset whose last transition is not
    absorbing, raise [IndexError] or [ValueError] from the loop that
    precedes the test of [sampling]; with no action, [_next_q] raises
    [NotImplementedError]. *)
Theorem WeightedQLearning_no_sampling_raises_in_loop :
  (forall (approximator_ : Model) (policy_ : Policy) (params_ : Params)
          (ns : State) (w : World),
     p_sampling params_ = Some false ->
     bind (new_WeightedQLearning approximator_ policy_ params_)
       (fun self => WeightedQLearning_next_q self ns) w
     = Raise AttributeError) /\
  (forall (self : Agent Model) (mi : MDPInfo) (m : Model) (sg : Table),
     sampling self = Some false ->
     mdp_info self = Some mi ->
     approximator self = Some m ->
     _sigma self = Some sg ->
     (forall (a : Action) (rest : list Action),
        values (action_space mi) = a :: rest ->
        (forall (ns : State) (w : World),
           exists e, (e = IndexError \/ e = ValueError) /\
                     WeightedQLearning_next_q self ns w = Raise e) /\
        (forall (ds : list Transition) (t : Transition) (w : World),
           absorbing t = false ->
           exists e, (e = IndexError \/ e = ValueError) /\
                     WeightedQLearning_fit self (ds ++ [t]) 1 w = Raise e)) /\
     (values (action_space mi) = [] ->
      forall (ns : State) (w : World),
        WeightedQLearning_next_q self ns w = Raise NotImplementedError)).
Proof.
  split; [intros; reflexivity|].
  intros self mi m sg Hsmp Hmi Hapx Hsg. split.
  - intros a rest Hv. split.
    + intros ns w.
      exact (WeightedQLearning_next_q_raises self mi m sg a rest ns w
               Hmi Hapx Hsg Hv).
    + intros ds t w Habs.
      exact (WeightedQLearning_fit_raises_with_next_q self mi m sg a rest ds
               t w Hmi Hapx Hsg Hv Habs).
  - intros Hv ns w.
    destruct (WeightedQLearning_next_q_no_action self mi ns w Hmi Hv)
      as [H _].
    exact (H Hsmp).
Qed.

(** C2.  [WeightedQLearning.fit] does not update the statistics of the
    key of the transition.  A program that builds the agent with its
    constructor and then calls [fit] stops in the constructor, with
    [AttributeError].  On an instance that was given the attributes by
    other means (tables with at least one column), no call of [fit]
    returns.  On an absorbing transition, with every attribute in
    place, the run raises: [IndexError] when [self._n_updates] or
    [self._Q2] refuses the list [[state, action]] as a subscript, which
    is the case as soon as the state or the action is not an array of
    integers; [ValueError] otherwise, the condition of line 160 being an
    array of several entries. *)
Theorem WeightedQLearning_fit_raises_at_statistics :
  (forall (approximator_ : Model) (policy_ : Policy) (params_ : Params)
          (ds : list Transition) (w : World),
     bind (new_WeightedQLearning approximator_ policy_ params_)
       (fun self => WeightedQLearning_fit self ds 1) w
     = Raise AttributeError) /\
  (forall (self : Agent Model) (ds : list Transition) (n : Z) (w : World)
          (r : Agent Model * World),
     (forall nu, _n_updates self = Some nu -> (0 < cols nu)%nat) ->
     WeightedQLearning_fit self ds n w <> Ok r) /\
  (forall (self : Agent Model) (ds : list Transition) (t : Transition)
          (m : Model) (l : nat) (mi : MDPInfo) (prm : Params)
          (fp : FitParams) (nu q2 : Table) (w : World),
     approximator self = Some m ->
     learning_rate self = Some (LRone l) ->
     mdp_info self = Some mi ->
     params self = Some prm ->
     fit_params prm = Some fp ->
     _n_updates self = Some nu ->
     _Q2 self = Some q2 ->
     (0 < cols nu)%nat ->
     absorbing t = true ->
     let sa := [state_index (state t); action_index (action t)] in
     WeightedQLearning_fit self (ds ++ [t]) 1 w
     = Raise (match take_rows nu sa, take_rows q2 sa with
              | Ok _, Ok _ => ValueError
              | _, _ => IndexError
              end) /\
     (state_index (state t) = None \/ action_index (action t) = None ->
      WeightedQLearning_fit self (ds ++ [t]) 1 w = Raise IndexError)).
Proof.
  split; [intros; reflexivity|]. split.
  - intros self ds n w r.
    exact (WeightedQLearning_fit_never_returns self ds n w r).
  - intros self ds t m l mi prm fp nu q2 w Hapx Hlr Hmi Hprm Hfp Hnu Hq2
      Hc Habs sa.
    pose proof (WeightedQLearning_fit_absorbing_raises self ds t m l mi prm
                  fp nu q2 w Hapx Hlr Hmi Hprm Hfp Hnu Hq2 Hc Habs) as E.
    cbv zeta in E. fold sa in E.
    split; [exact E|].
    intros Hnone. rewrite E. unfold take_rows.
    unfold sa. now rewrite (select_rows_refused nu _ _ Hnone).
Qed.

End Updates.

Section Callback.

Context {C : Collaborators}.

Lemma CollectMaxQ_call_spec (cb : CollectMaxQ) (w : World) :
  _action_values cb <> [] ->
  exists v a,
    CollectMaxQ_call cb w
    = Ok ({| _approximator := _approximator cb; _state := _state cb;
             _action_values := _action_values cb;
             _max_Qs := _max_Qs cb ++ [v] |},
          add_calls
            (rev (predictions None (_state cb) (_action_values cb))) w) /\
    is_max_at (_approximator cb) (_state cb) (_action_values cb) v a.
Proof.
  intros Hne. unfold CollectMaxQ_call.
  destruct (max_QA_spec None (_state cb) false (_approximator cb) _ w Hne)
    as (v & a & E & Hmax).
  exists v, a. split; [|exact Hmax].
  erewrite bind_ok by exact E. reflexivity.
Qed.

Lemma predictions_are_predictions (i : option Z) (s : State)
    (actions : list Action) :
  Forall is_prediction (rev (predictions i s actions)).
Proof.
  apply Forall_rev. unfold predictions.
  induction actions; cbn; constructor; cbn; auto.
Qed.

(** C10.  For a callback built on a state and a non-empty action set:
    one invocation appends exactly one value to the log, the largest
    value the approximator predicts at that state over those actions,
    and does nothing to the approximator but ask it for predictions;
    after [n] invocations [get_values] returns the log it had before
    followed by [n] new values in the order of the invocations, the j-th
    being the maximum for the state the approximator was in at the j-th
    invocation; a callback just constructed has an empty log, so it then
    returns exactly [n] entries. *)
Theorem CollectMaxQ_logs_max :
  forall (approximator_ : Model) (s : State) (actions : list Action),
    actions <> [] ->
    get_values (CollectMaxQ_init approximator_ s actions) = [] /\
    (forall (cb : CollectMaxQ) (w : World),
       _state cb = s -> _action_values cb = actions ->
       exists cb' v a,
         CollectMaxQ_call cb w
         = Ok (cb', add_calls (rev (predictions None s actions)) w) /\
         get_values cb' = get_values cb ++ [v] /\
         _approximator cb' = _approximator cb /\
         is_max_at (_approximator cb) s actions v a) /\
    (forall (ms : list Model) (cb : CollectMaxQ) (w : World),
       _state cb = s -> _action_values cb = actions ->
       exists cb' cs vs,
         CollectMaxQ_calls cb ms w = Ok (cb', add_calls cs w) /\
         Forall is_prediction cs /\
         get_values cb' = get_values cb ++ vs /\
         length vs = length ms /\
         Forall2 (fun m v => exists a, is_max_at m s actions v a) ms vs).
Proof.
  intros m0 s actions Hne. split; [reflexivity|]. split.
  - intros cb w Hs Ha.
    destruct (CollectMaxQ_call_spec cb w) as (v & a & E & Hmax);
      [now rewrite Ha|].
    rewrite Hs, Ha in *. eexists. exists v, a. split; [exact E|].
    repeat split; try reflexivity; apply Hmax.
  - induction ms as [|m ms IH]; intros cb w Hs Ha.
    + exists cb, [], []. cbn. unfold ret. rewrite add_calls_nil.
      rewrite app_nil_r. repeat split; constructor.
    + cbn [CollectMaxQ_calls].
      set (cb0 := {| _approximator := m; _state := _state cb;
                     _action_values := _action_values cb;
                     _max_Qs := _max_Qs cb |}).
      destruct (CollectMaxQ_call_spec cb0 w) as (v & a & E & Hmax);
        [cbn; now rewrite Ha|].
      cbn [_approximator _state _action_values _max_Qs cb0] in E, Hmax.
      rewrite Hs, Ha in E, Hmax.
      erewrite bind_ok by exact E.
      match goal with
      | |- context [CollectMaxQ_calls ?c ms ?w1] =>
          destruct (IH c w1) as (cb' & cs & vs & E' & Hcs & Hv & Hlen & Hall);
            [reflexivity|reflexivity|]
      end.
      rewrite E'. rewrite add_calls_app.
      exists cb'. eexists. exists (v :: vs).
      split; [reflexivity|]. split; [|split; [|split]].
      * apply Forall_app. split; [exact Hcs|].
        apply predictions_are_predictions.
      * rewrite Hv. unfold get_values. cbn. now rewrite <- app_assoc.
      * cbn. now rewrite Hlen.
      * constructor; [now exists a|exact Hall].
Qed.

End Callback.

Section DoubleQ.

Context {C : Collaborators}.

Lemma py_index_pick {A} (idx : Z) (x0 x1 : A) :
  idx = 0%Z \/ idx = 1%Z -> py_index [x0; x1] idx = Ok (pick idx x0 x1).
Proof. intros [-> | ->]; reflexivity. Qed.

Lemma py_update_pick {A} (idx : Z) (x0 x1 v : A) :
  idx = 0%Z \/ idx = 1%Z ->
  py_update [x0; x1] idx v = pick idx [v; x1] [x0; v].
Proof. intros [-> | ->]; reflexivity. Qed.

Lemma coin_cases (u : R) : coin u = 0%Z \/ coin u = 1%Z.
Proof. unfold coin. destruct (Rlt_dec u 0.5); auto. Qed.

(** What one call of [DoubleQLearning.fit] does, exactly. *)
Lemma DoubleQLearning_fit_spec (self : Agent (list Model)) (m0 m1 : Model)
    (l0 l1 : nat) (mi : MDPInfo) (prm : Params) (fp : FitParams)
    (ds : list Transition) (t : Transition) (w : World) :
  dq_ready self m0 m1 l0 l1 mi prm fp ->
  absorbing t = true \/ values (action_space mi) <> [] ->
  let u := fst (uniform (rng w)) in
  let idx := coin u in
  let sa := (state t, action t) in
  let sel := pick idx m0 m1 in
  let oth := pick idx m1 m0 in
  let lsel := pick idx l0 l1 in
  let alpha := fst (rate (schedules w lsel) sa) in
  exists (a_n : Action) (w' : World),
    let q_next :=
      if absorbing t then 0 else predict oth (next_state t, a_n) in
    let q :=
      predict sel sa
      + alpha * (reward t + gamma mi * q_next - predict sel sa) in
    DoubleQLearning_fit self (ds ++ [t]) 1 w
    = Ok (set_approximator self
            (Some (pick idx [model_fit m0 sa q fp; m1]
                            [m0; model_fit m1 sa q fp])), w') /\
    (absorbing t = false ->
     exists v, is_max_at sel (next_state t) (values (action_space mi)) v a_n) /\
    calls w'
    = CFit (Some idx) sa q :: CRate lsel sa
      :: (if absorbing t then []
          else CPredict (Some (1 - idx)%Z) (next_state t, a_n)
               :: rev (predictions (Some idx) (next_state t)
                         (values (action_space mi))))
      ++ CPredict (Some idx) sa :: CUniform u :: calls w /\
    schedules w' lsel = snd (rate (schedules w lsel) sa) /\
    (forall l, l <> lsel -> schedules w' l = schedules w l) /\
    next_loc w' = next_loc w.
Proof.
  intros (Hapx & Hlr & Hl & Hmi & Hprm & Hfp) Hok u idx sa sel oth lsel alpha.
  pose proof (coin_cases u) as Hidx. fold idx in Hidx.
  unfold DoubleQLearning_fit.
  rewrite (bind_ok _ _ w w tt) by reflexivity.
  erewrite bind_ok by (apply lift_ok, py_index_last).
  erewrite bind_ok by (apply lift_ok; reflexivity). cbv beta iota.
  unfold call_uniform at 1.
  subst u. destruct (uniform (rng w)) as [u g] eqn:Eu. cbn [fst] in *.
  erewrite bind_ok by (rewrite Eu; reflexivity).
  cbv zeta. change (if Rlt_dec u 0.5 then 0%Z else 1%Z) with (coin u).
  fold idx. fold sa.
  rewrite (bind_ok _ _ _ _ _ (getattr_some _ _ _ Hapx)).
  erewrite bind_ok by (apply lift_ok, py_index_pick, Hidx). fold sel.
  erewrite bind_ok by reflexivity.
  set (w1 := log (CPredict (Some idx) sa)
               {| schedules := schedules w; next_loc := next_loc w;
                  rng := g; calls := CUniform u :: calls w |}).
  assert (Hnext : exists a_n w2,
    (if negb (absorbing t)
     then DoubleQLearning_next_q self (next_state t) idx
     else ret 0) w1
    = Ok ((if absorbing t then 0 else predict oth (next_state t, a_n)), w2) /\
    (absorbing t = false ->
     exists v, is_max_at sel (next_state t) (values (action_space mi)) v a_n) /\
    w2 = add_calls
           (if absorbing t then []
            else CPredict (Some (1 - idx)%Z) (next_state t, a_n)
                 :: rev (predictions (Some idx) (next_state t)
                           (values (action_space mi)))) w1).
  { destruct (absorbing t) eqn:Habs; cbn [negb].
    - exists (action t), w1. split; [reflexivity|].
      split; [discriminate|]. now rewrite add_calls_nil.
    - destruct Hok as [Hok|Hne]; [discriminate|].
      destruct (DoubleQLearning_next_q_spec self m0 m1 mi (next_state t)
                  idx w1 Hapx Hmi Hne Hidx) as (v & a & E & Hmax).
      exists a. eexists. split; [exact E|]. split; [|reflexivity].
      intros _. exists v. exact Hmax. }
  destruct Hnext as (a_n & w2 & Enext & Hmax & Ew2).
  exists a_n.
  erewrite bind_ok by exact Enext.
  rewrite (bind_ok _ _ _ _ _ (getattr_some _ _ _ Hlr)).
  unfold learning_rate_item.
  erewrite bind_ok by (apply lift_ok, py_index_pick, Hidx).
  replace (pick idx (LRone l0) (LRone l1)) with (LRone lsel)
    by (subst lsel; unfold pick; now destruct (idx =? 0)%Z).
  unfold call_learning_rate.
  assert (Hs2 : schedules w2 = schedules w) by (rewrite Ew2; reflexivity).
  erewrite bind_ok by apply call_rate_spec.
  rewrite Hs2. fold alpha.
  rewrite (bind_ok _ _ _ _ _ (getattr_some _ _ _ Hmi)).
  rewrite (bind_ok _ _ _ _ _ (getattr_some _ _ _ Hapx)).
  erewrite bind_ok by (apply lift_ok, py_index_pick, Hidx). fold sel.
  rewrite (bind_ok _ _ _ _ _ (getattr_some _ _ _ Hprm)).
  rewrite (bind_ok _ _ _ _ _ (getitem_some _ _ _ Hfp)).
  erewrite bind_ok by reflexivity.
  unfold ret. rewrite (py_update_pick idx) by exact Hidx.
  eexists. split.
  - f_equal. f_equal. f_equal. f_equal.
    subst sel. unfold pick. destruct (idx =? 0)%Z; reflexivity.
  - split; [exact Hmax|]. cbn [calls schedules next_loc log].
    rewrite Ew2. cbn [calls schedules next_loc add_calls log w1].
    split; [|split; [|split]].
    + reflexivity.
    + now rewrite Nat.eqb_refl.
    + intros l Hne. destruct (l =? lsel)%nat eqn:E; [|reflexivity].
      apply Nat.eqb_eq in E. contradiction.
    + reflexivity.
Qed.

Lemma count_fits_app (i : Z) (cs ds : list Call) :
  count_fits i (cs ++ ds) = (count_fits i cs + count_fits i ds)%nat.
Proof.
  induction cs as [|c cs IH]; [reflexivity|].
  destruct c as [j sa|[j|] sa q|l sa|u]; cbn; rewrite ?IH; lia.
Qed.

Lemma count_rates_app (l : nat) (cs ds : list Call) :
  count_rates l (cs ++ ds) = (count_rates l cs + count_rates l ds)%nat.
Proof.
  induction cs as [|c cs IH]; [reflexivity|].
  destruct c as [j sa|j sa q|l' sa|u]; cbn; rewrite ?IH; lia.
Qed.

Lemma count_coins_app (i : Z) (cs ds : list Call) :
  count_coins i (cs ++ ds) = (count_coins i cs + count_coins i ds)%nat.
Proof.
  induction cs as [|c cs IH]; [reflexivity|].
  destruct c as [j sa|j sa q|l' sa|u]; cbn; rewrite ?IH; lia.
Qed.

Lemma count_predictions (i : Z) (l : nat) (cs : list Call) :
  Forall is_prediction cs ->
  count_fits i cs = 0%nat /\ count_rates l cs = 0%nat /\
  count_coins i cs = 0%nat.
Proof.
  induction 1 as [|c cs Hc _ IH]; [auto|].
  destruct c; cbn in *; try contradiction. exact IH.
Qed.

(** The calls one [fit] makes: one draw, predictions, one call of the
    selected schedule and one [fit] of the selected model. *)
Lemma count_one_fit (i : Z) (l : nat) (idx : Z) (lsel : nat) (sa : SA)
    (q u : R) (mid : list Call) :
  Forall is_prediction mid ->
  let cs := CFit (Some idx) sa q :: CRate lsel sa
            :: mid ++ [CPredict (Some idx) sa; CUniform u] in
  count_fits i cs = (if (i =? idx)%Z then 1 else 0)%nat /\
  count_rates l cs = (if (l =? lsel)%nat then 1 else 0)%nat /\
  count_coins i cs = (if (i =? coin u)%Z then 1 else 0)%nat.
Proof.
  intros Hmid cs. subst cs.
  destruct (count_predictions i l mid Hmid) as (Hf & Hr & Hc).
  cbn [count_fits count_rates count_coins].
  rewrite count_fits_app, count_rates_app, count_coins_app, Hf, Hr, Hc.
  cbn. repeat split; lia.
Qed.

Lemma mid_calls_are_predictions (b : bool) (i j : option Z) (s : State)
    (a : Action) (actions : list Action) :
  Forall is_prediction
    (if b then []
     else CPredict j (s, a) :: rev (predictions i s actions)).
Proof.
  destruct b; [constructor|].
  constructor; [exact I|apply predictions_are_predictions].
Qed.

(** Along a run of [fit] calls the agent stays as its constructor left
    it, and each model is fitted, and each schedule called, exactly as
    often as the draws selected it. *)
Lemma DoubleQLearning_fits_counts (l0 l1 : nat) (mi : MDPInfo)
    (prm : Params) (fp : FitParams) (dss : list (list Transition)) :
  values (action_space mi) <> [] ->
  Forall (fun ds => ds <> []) dss ->
  forall (self : Agent (list Model)) (m0 m1 : Model) (w : World),
    dq_ready self m0 m1 l0 l1 mi prm fp ->
    exists self' m0' m1' cs w',
      DoubleQLearning_fits self dss w = Ok (self', w') /\
      dq_ready self' m0' m1' l0 l1 mi prm fp /\
      calls w' = cs ++ calls w /\
      count_fits 0 cs = count_coins 0 cs /\
      count_fits 1 cs = count_coins 1 cs /\
      count_rates l0 cs = count_coins 0 cs /\
      count_rates l1 cs = count_coins 1 cs /\
      (count_coins 0 cs + count_coins 1 cs = length dss)%nat.
Proof.
  intros Hne Hds. induction Hds as [|ds dss Hd _ IH]; intros self m0 m1 w Hr.
  - exists self, m0, m1, [], w. cbn.
    split; [reflexivity|]. split; [exact Hr|]. repeat split; auto.
  - destruct (exists_last Hd) as (ds' & t & ->).
    destruct (DoubleQLearning_fit_spec self m0 m1 l0 l1 mi prm fp ds' t w Hr
                (or_intror Hne))
      as (a_n & w1 & E & _ & Hcalls & _ & _ & _).
    cbn zeta in E, Hcalls.
    set (u := fst (uniform (rng w))) in *.
    set (idx := coin u) in *.
    cbn [DoubleQLearning_fits]. erewrite bind_ok by exact E.
    match type of E with
    | _ = Ok (?s1, _) =>
        assert (Hr1 : exists n0 n1, dq_ready s1 n0 n1 l0 l1 mi prm fp)
    end.
    { destruct Hr as (Hapx & Hlr & Hl & Hmi & Hprm & Hfp).
      unfold pick. destruct (idx =? 0)%Z;
        eexists; eexists; repeat split; try eassumption; reflexivity. }
    destruct Hr1 as (n0 & n1 & Hr1).
    destruct (IH _ n0 n1 w1 Hr1)
      as (self' & m0' & m1' & cs & w' & E' & Hr' & Hc' & H0 & H1 & H2 & H3
          & H4).
    exists self', m0', m1'.
    match type of Hcalls with
    | _ = CFit ?i ?sa ?q :: CRate ?l ?sa' :: ?mid ++ ?p :: ?c :: _ =>
        exists (cs ++ CFit i sa q :: CRate l sa' :: mid ++ [p; c]);
        pose proof (count_one_fit 0 l0 idx l sa q u mid
                      (mid_calls_are_predictions _ _ _ _ _ _))
          as (F0 & R0 & C0);
        pose proof (count_one_fit 1 l1 idx l sa q u mid
                      (mid_calls_are_predictions _ _ _ _ _ _)) as (F1 & R1 & C1)
    end.
    exists w'. split; [exact E'|]. split; [exact Hr'|].
    destruct Hr as (_ & _ & Hl & _).
    split.
    { rewrite Hc', Hcalls. rewrite <- !app_assoc. cbn.
      rewrite <- !app_assoc. reflexivity. }
    rewrite !count_fits_app, !count_rates_app, !count_coins_app.
    rewrite F0, R0, C0, F1, R1, C1. fold idx.
    assert (E01 : (l0 =? l1)%nat = false) by now apply Nat.eqb_neq.
    assert (E10 : (l1 =? l0)%nat = false) by (apply Nat.eqb_neq; auto).
    unfold pick.
    destruct (coin_cases u) as [Ec|Ec]; fold idx in Ec; rewrite Ec; cbn;
      rewrite ?Nat.eqb_refl, ?E01, ?E10; cbn [length];
      repeat split; lia.
Qed.

Lemma count_predicts_app (i : Z) (cs ds : list Call) :
  count_predicts i (cs ++ ds)
  = (count_predicts i cs + count_predicts i ds)%nat.
Proof.
  induction cs as [|c cs IH]; [reflexivity|].
  destruct c as [[j|] sa|j sa q|l' sa|u]; cbn; rewrite ?IH; lia.
Qed.

(** The predictions [max_QA] asks for are all on the regressor it is
    given, one per action. *)
Lemma count_predicts_predictions (i idx : Z) (s : State)
    (actions : list Action) :
  count_predicts i (rev (predictions (Some idx) s actions))
  = if (i =? idx)%Z then length actions else 0%nat.
Proof.
  induction actions as [|a actions IH].
  - cbn. now destruct (i =? idx)%Z.
  - cbn [predictions map rev]. fold (predictions (Some idx) s actions).
    rewrite count_predicts_app, IH. cbn.
    destruct (i =? idx)%Z; lia.
Qed.

Lemma predictions_on_selected (idx : Z) (l : nat) (s : State)
    (actions : list Action) :
  Forall (on_selected_only idx l) (rev (predictions (Some idx) s actions)).
Proof.
  apply Forall_rev. unfold predictions.
  induction actions; cbn; constructor; cbn; auto.
Qed.

(** C6 (as amended).  Take a [DoubleQLearning] agent as its constructor
    leaves it, with a non-empty action set.
    - The draws in [0, 1) that select index 0 are those below 0.5 and the
      ones that select index 1 are the others: two intervals of length
      0.5.
    - One call of [fit] with [n_fit_iterations = 1] on a dataset ending
      with [t] returns; it calls [fit] once, on the selected model, and
      one schedule once, the selected one; the model that was not
      selected, the attribute [learning_rate] and the state of the
      schedule that was not selected are unchanged, and the selected
      schedule has advanced once.  When [t] is absorbing every call is
      on the selected index; when it is not, the selected model is asked
      for predictions and the model that was NOT selected is asked for
      exactly one, the value of the selected model's best action.  The
      calls of the run are, in order: the draw, the prediction of the
      selected model at the key of [t], then (when [t] is not absorbing)
      one prediction of the selected model per action at the next state
      and the one prediction of the other model, then the call of the
      selected schedule and the [fit] of the selected model; so the
      other model is asked for a prediction exactly once when [t] is not
      absorbing and never when it is.
    - Over any run of calls on non-empty datasets each model is fitted,
      and each schedule called, exactly as many times as the draws
      selected its index. *)
Theorem DoubleQLearning_fit_frame :
  forall (self : Agent (list Model)) (m0 m1 : Model) (l0 l1 : nat)
         (mi : MDPInfo) (prm : Params) (fp : FitParams),
    dq_ready self m0 m1 l0 l1 mi prm fp ->
    values (action_space mi) <> [] ->
    (forall u, 0 <= u < 1 ->
       (coin u = 0%Z <-> 0 <= u < 0.5) /\ (coin u = 1%Z <-> 0.5 <= u < 1)) /\
    (0.5 - 0 = 0.5 /\ 1 - 0.5 = 0.5) /\
    (forall (ds : list Transition) (t : Transition) (w : World),
       let u := fst (uniform (rng w)) in
       let idx := coin u in
       let sa := (state t, action t) in
       let lsel := pick idx l0 l1 in
       let loth := pick idx l1 l0 in
       exists (self' : Agent (list Model)) (w' : World) (new : list Call)
              (m_sel : Model) (a_n : Action),
         DoubleQLearning_fit self (ds ++ [t]) 1 w = Ok (self', w') /\
         calls w' = new ++ calls w /\
         approximator self' = Some (pick idx [m_sel; m1] [m0; m_sel]) /\
         learning_rate self' = learning_rate self /\
         schedules w' loth = schedules w loth /\
         schedules w' lsel = snd (rate (schedules w lsel) sa) /\
         count_fits idx new = 1%nat /\
         count_fits (1 - idx) new = 0%nat /\
         count_rates lsel new = 1%nat /\
         count_rates loth new = 0%nat /\
         (absorbing t = true -> Forall (on_selected_only idx lsel) new) /\
         (absorbing t = false ->
          In (CPredict (Some (1 - idx)%Z) (next_state t, a_n)) new /\
          (exists v, is_max_at (pick idx m0 m1) (next_state t)
                       (values (action_space mi)) v a_n) /\
          Forall (fun c => on_selected_only idx lsel c \/
                           c = CPredict (Some (1 - idx)%Z) (next_state t, a_n))
                 new) /\
         count_predicts (1 - idx) new
         = (if absorbing t then 0 else 1)%nat /\
         count_predicts idx new
         = (if absorbing t then 1
            else S (length (values (action_space mi))))%nat /\
         exists q : R,
           new
           = CFit (Some idx) sa q :: CRate lsel sa
             :: (if absorbing t then []
                 else CPredict (Some (1 - idx)%Z) (next_state t, a_n)
                      :: rev (predictions (Some idx) (next_state t)
                                (values (action_space mi))))
             ++ [CPredict (Some idx) sa; CUniform u]) /\
    (forall (dss : list (list Transition)) (w : World),
       Forall (fun ds => ds <> []) dss ->
       exists (self' : Agent (list Model)) (cs : list Call) (w' : World),
         DoubleQLearning_fits self dss w = Ok (self', w') /\
         calls w' = cs ++ calls w /\
         count_fits 0 cs = count_coins 0 cs /\
         count_fits 1 cs = count_coins 1 cs /\
         count_rates l0 cs = count_coins 0 cs /\
         count_rates l1 cs = count_coins 1 cs /\
         (count_coins 0 cs + count_coins 1 cs = length dss)%nat).
Proof.
  intros self m0 m1 l0 l1 mi prm fp Hr Hne.
  split; [|split; [|split]].
  - intros u Hu. unfold coin. destruct (Rlt_dec u 0.5); split; split;
      intros; try discriminate; try lra; auto.
  - split; lra.
  - intros ds t w u idx sa lsel loth.
    destruct (DoubleQLearning_fit_spec self m0 m1 l0 l1 mi prm fp ds t w Hr
                (or_intror Hne))
      as (a_n & w' & E & Hmax & Hcalls & Hsel & Hoth & _).
    cbn zeta in E, Hmax, Hcalls, Hsel, Hoth.
    fold u in E, Hmax, Hcalls, Hsel, Hoth.
    fold idx in E, Hmax, Hcalls, Hsel, Hoth.
    fold sa in E, Hcalls, Hsel. fold lsel in E, Hcalls, Hsel, Hoth.
    destruct Hr as (Hapx & Hlr & Hl & Hmi & Hprm & Hfp).
    assert (Hll : loth <> lsel).
    { subst loth lsel. unfold pick. destruct (idx =? 0)%Z; auto. }
    match type of Hcalls with
    | _ = CFit ?i _ ?q :: CRate _ _ :: ?mid ++ ?p :: ?c :: _ =>
        exists (set_approximator self
                  (Some (pick idx [model_fit m0 sa q fp; m1]
                                  [m0; model_fit m1 sa q fp]))), w',
               (CFit i sa q :: CRate lsel sa :: mid ++ [p; c]),
               (model_fit (pick idx m0 m1) sa q fp), a_n;
        pose proof (count_one_fit idx lsel idx lsel sa q u mid
                      (mid_calls_are_predictions _ _ _ _ _ _)) as (F0 & R0 & _);
        pose proof (count_one_fit (1 - idx) loth idx lsel sa q u mid
                      (mid_calls_are_predictions _ _ _ _ _ _)) as (F1 & R1 & _)
    end.
    cbv zeta in F0, R0, F1, R1.
    rewrite Z.eqb_refl in F0. rewrite Nat.eqb_refl in R0.
    replace (1 - idx =? idx)%Z with false in F1
      by (destruct (coin_cases u) as [Ec|Ec]; fold idx in Ec; now rewrite Ec).
    replace (loth =? lsel)%nat with false in R1
      by (symmetry; now apply Nat.eqb_neq).
    split; [exact E|].
    split; [rewrite Hcalls; cbn; now rewrite <- app_assoc|].
    split.
    { cbn. f_equal. unfold pick. destruct (idx =? 0)%Z; reflexivity. }
    split; [reflexivity|].
    split; [now apply Hoth|].
    split; [exact Hsel|].
    split; [exact F0|]. split; [exact F1|].
    split; [exact R0|]. split; [exact R1|].
    assert (Hx : (1 - idx =? idx)%Z = false).
    { destruct (coin_cases u) as [Ec|Ec]; fold idx in Ec; now rewrite Ec. }
    split; [|split; [|split; [|split]]].
    + intros Habs. rewrite Habs. cbn.
      repeat constructor.
    + intros Habs. rewrite Habs. split; [right; right; now left|].
      split; [now apply Hmax|].
      constructor; [left; reflexivity|].
      constructor; [left; reflexivity|].
      cbn [app]. constructor; [right; reflexivity|].
      apply Forall_app. split.
      * eapply Forall_impl; [|apply (predictions_on_selected idx lsel)].
        intros c Hc. left. exact Hc.
      * repeat constructor.
    + cbn [count_predicts]. rewrite count_predicts_app.
      cbn [count_predicts]. rewrite Hx.
      destruct (absorbing t); [reflexivity|].
      cbn [count_predicts]. rewrite count_predicts_predictions, Hx.
      rewrite Z.eqb_refl. reflexivity.
    + cbn [count_predicts]. rewrite count_predicts_app.
      cbn [count_predicts]. rewrite Z.eqb_refl.
      destruct (absorbing t); [reflexivity|].
      cbn [count_predicts]. rewrite count_predicts_predictions.
      rewrite Z.eqb_refl.
      replace (idx =? 1 - idx)%Z with false
        by (destruct (coin_cases u) as [Ec|Ec]; fold idx in Ec;
            now rewrite Ec).
      lia.
    + eexists. reflexivity.
  - intros dss w Hds.
    destruct (DoubleQLearning_fits_counts l0 l1 mi prm fp dss Hne Hds
                self m0 m1 w Hr)
      as (self' & _ & _ & cs & w' & E & _ & H).
    exists self', cs, w'. split; [exact E|exact H].
Qed.

End DoubleQ.

(** * Further properties of the code *)

Section Calls.

Context {C : Collaborators}.

(** X1.  The three [fit] methods check [n_fit_iterations] before
    anything else and index the dataset next: with a value other than 1
    they raise [AssertionError] whatever the agent and the dataset are
    (an empty dataset included), and with the value 1 they raise
    [IndexError] on an empty dataset whatever the agent is. *)
Theorem fit_rejects_iterations_and_empty_dataset :
  (forall (n : Z),
     n <> 1%Z ->
     (forall (_next_q : Resolver) (self : Agent Model)
             (ds : list Transition) (w : World),
        TD_fit _next_q self ds n w = Raise AssertionError) /\
     (forall (self : Agent (list Model)) (ds : list Transition) (w : World),
        DoubleQLearning_fit self ds n w = Raise AssertionError) /\
     (forall (self : Agent Model) (ds : list Transition) (w : World),
        WeightedQLearning_fit self ds n w = Raise AssertionError)) /\
  (forall (_next_q : Resolver) (self : Agent Model) (w : World),
     TD_fit _next_q self [] 1 w = Raise IndexError) /\
  (forall (self : Agent (list Model)) (w : World),
     DoubleQLearning_fit self [] 1 w = Raise IndexError) /\
  (forall (self : Agent Model) (w : World),
     WeightedQLearning_fit self [] 1 w = Raise IndexError).
Proof.
  split.
  - intros n Hn. apply Z.eqb_neq in Hn.
    repeat split; intros;
      unfold TD_fit, DoubleQLearning_fit, WeightedQLearning_fit, bind,
        assert; rewrite Hn; reflexivity.
  - repeat split; intros; reflexivity.
Qed.

(** X2.  Whatever the agent, the world and [n_fit_iterations] are, each
    of the three [fit] methods does on a dataset that ends with [t]
    exactly what it does on the one-element dataset [[t]]: same agent
    and world returned, or same exception raised.  Nothing before the
    last transition is ever read. *)
Theorem fit_reads_last_only :
  forall (ds : list Transition) (t : Transition) (n : Z),
    (forall (_next_q : Resolver) (self : Agent Model) (w : World),
       TD_fit _next_q self (ds ++ [t]) n w = TD_fit _next_q self [t] n w) /\
    (forall (self : Agent (list Model)) (w : World),
       DoubleQLearning_fit self (ds ++ [t]) n w
       = DoubleQLearning_fit self [t] n w) /\
    (forall (self : Agent Model) (w : World),
       WeightedQLearning_fit self (ds ++ [t]) n w
       = WeightedQLearning_fit self [t] n w).
Proof.
  intros ds t n.
  assert (H : py_index (ds ++ [t]) (-1) = py_index [t] (-1)).
  { rewrite py_index_last. reflexivity. }
  repeat split; intros;
    unfold TD_fit, DoubleQLearning_fit, WeightedQLearning_fit;
    rewrite H; reflexivity.
Qed.

(** X3.  When the last transition of the dataset is absorbing, [TD.fit]
    never calls the resolver: with any two resolvers it returns the same
    agent and world or raises the same exception.  In particular
    [QLearning.fit] and [SARSA.fit] cannot be told apart on such a
    dataset; [SARSA.fit] then neither draws from the policy nor assigns
    [_next_action]. *)
Theorem TD_fit_absorbing_ignores_resolver :
  forall (nq1 nq2 : Resolver) (self : Agent Model) (ds : list Transition)
         (t : Transition) (n : Z) (w : World),
    absorbing t = true ->
    TD_fit nq1 self (ds ++ [t]) n w = TD_fit nq2 self (ds ++ [t]) n w /\
    SARSA_fit self (ds ++ [t]) n w = QLearning_fit self (ds ++ [t]) n w.
Proof.
  intros nq1 nq2 self ds t n w Habs.
  assert (H : forall nq nq', TD_fit nq self (ds ++ [t]) n w
                             = TD_fit nq' self (ds ++ [t]) n w).
  { intros nq nq'. unfold TD_fit, bind.
    destruct (assert (n =? 1)%Z w) as [[u w0]|e]; [|reflexivity].
    cbv beta iota. rewrite py_index_last.
    unfold lift, parse_dataset. cbv beta iota. rewrite Habs.
    reflexivity. }
  split; [apply H|]. unfold SARSA_fit, QLearning_fit. apply H.
Qed.

(** X4.  The constructors of [QLearning], [SARSA] and
    [DoubleQLearning] start with [TD.__init__], which takes the schedule
    out of [params['algorithm_params']]: when the dictionary
    [algorithm_params] is missing, or is there without the key
    [learning_rate], each of them raises [KeyError], for
    [DoubleQLearning] whatever the number of models of the ensemble is
    (the two-model check comes later). *)
Theorem constructors_need_learning_rate :
  forall (params_ : Params),
    algorithm_params params_ = None \/
    algorithm_params params_ = Some {| p_learning_rate := None |} ->
    (forall (approximator_ : Model) (policy_ : Policy) (w : World),
       new_QLearning approximator_ policy_ params_ w = Raise KeyError /\
       new_SARSA approximator_ policy_ params_ w = Raise KeyError) /\
    (forall (approximator_ : list Model) (policy_ : Policy) (w : World),
       new_DoubleQLearning approximator_ policy_ params_ w
       = Raise KeyError).
Proof.
  intros prm H.
  unfold new_QLearning, new_SARSA, new_DoubleQLearning, QLearning_init,
    SARSA_init, DoubleQLearning_init, TD_init, bind, getitem.
  destruct H as [H|H]; rewrite H; repeat split; reflexivity.
Qed.

(** X5.  With a schedule at address [l] under
    [params['algorithm_params']['learning_rate']], the constructors of
    [QLearning] and [SARSA] return without touching the world: no
    schedule is copied and the agent's [learning_rate] is the very
    schedule it was given, so that the first [fit] of the agent (here on
    a dataset whose last transition is absorbing, with fit options in
    [params]) advances the caller's schedule at [l].  [__str__] of the
    new agent returns the name of its class. *)
Theorem QLearning_SARSA_init_share_schedule :
  forall (approximator_ : Model) (policy_ : Policy) (params_ : Params)
         (ap : AlgorithmParams) (l : nat) (w : World),
    algorithm_params params_ = Some ap ->
    p_learning_rate ap = Some l ->
    exists q s : Agent Model,
      new_QLearning approximator_ policy_ params_ w = Ok (q, w) /\
      new_SARSA approximator_ policy_ params_ w = Ok (s, w) /\
      learning_rate q = Some (LRone l) /\
      learning_rate s = Some (LRone l) /\
      approximator q = Some approximator_ /\
      approximator s = Some approximator_ /\
      TD_str q w = Ok ("QLearning"%string, w) /\
      TD_str s w = Ok ("SARSA"%string, w) /\
      forall (fp : FitParams) (ds : list Transition) (t : Transition),
        fit_params params_ = Some fp ->
        absorbing t = true ->
        exists q' w',
          QLearning_fit q (ds ++ [t]) 1 w = Ok (q', w') /\
          schedules w' l = snd (rate (schedules w l) (state t, action t)) /\
          learning_rate q' = Some (LRone l).
Proof.
  intros apx pol prm ap l w Hap Hl.
  unfold new_QLearning, new_SARSA, QLearning_init, SARSA_init, TD_init,
    Agent_init, bind, getitem, ret.
  rewrite Hap, Hl. cbn -[QLearning_fit].
  eexists. eexists. split; [reflexivity|]. split; [reflexivity|].
  do 6 (split; [reflexivity|]).
  intros fp ds t Hfp Habs.
  match goal with
  | |- context [QLearning_fit ?q _ _ _] =>
      destruct (TD_fit_spec QLearning_next_q q q ds t apx apx l
                  (p_mdp_info prm)
                  {| algorithm_params := Some {| p_learning_rate := None |};
                     fit_params := fit_params prm;
                     p_mdp_info := p_mdp_info prm;
                     p_sampling := p_sampling prm;
                     p_precision := p_precision prm |}
                  fp 0 w (log (CPredict None (state t, action t)) w))
        as (w2 & E & _ & Hs & _);
        try reflexivity; try assumption
  end.
  { rewrite Habs. reflexivity. }
  eexists. exists w2. split; [exact E|]. split; [exact Hs|reflexivity].
Qed.

(** X6.  On two models and a non-empty action set,
    [DoubleQLearning._next_q] returns a value that is never above the
    largest prediction of the evaluating model (the one that was not
    selected) at the next state; and when the two models predict the
    same values at the next state it returns exactly that largest
    prediction, the value [QLearning._next_q] computes from either
    model. *)
Theorem DoubleQLearning_next_q_below_max :
  forall (self : Agent (list Model)) (m0 m1 : Model) (mi : MDPInfo)
         (ns : State) (idx : Z) (w : World),
    approximator self = Some [m0; m1] ->
    mdp_info self = Some mi ->
    values (action_space mi) <> [] ->
    idx = 0%Z \/ idx = 1%Z ->
    let actions := values (action_space mi) in
    let sel := pick idx m0 m1 in
    let oth := pick idx m1 m0 in
    exists v w',
      DoubleQLearning_next_q self ns idx w = Ok (v, w') /\
      (forall v' a', is_max_at oth ns actions v' a' -> v <= v') /\
      ((forall a, In a actions -> predict m0 (ns, a) = predict m1 (ns, a)) ->
       exists a, is_max_at oth ns actions v a /\
                 is_max_at sel ns actions v a).
Proof.
  intros self m0 m1 mi ns idx w Hapx Hmi Hne Hidx actions sel oth.
  destruct (DoubleQLearning_next_q_spec self m0 m1 mi ns idx w
              Hapx Hmi Hne Hidx) as (vs & a & E & Ha & Hv & Hle).
  cbv zeta in E, Ha, Hv, Hle. fold actions in Ha, Hle.
  change (if (idx =? 0)%Z then m1 else m0) with oth in E.
  change (if (idx =? 0)%Z then m0 else m1) with sel in Hv, Hle.
  eexists. eexists. split; [exact E|]. split.
  - intros v' a' (_ & _ & Hmax). apply Hmax. exact Ha.
  - intros Hsame.
    assert (Hso : forall b, In b actions ->
                            predict oth (ns, b) = predict sel (ns, b)).
    { intros b Hb. subst sel oth. unfold pick.
      destruct (idx =? 0)%Z; [symmetry|]; apply Hsame; exact Hb. }
    exists a. split.
    + split; [exact Ha|]. split; [reflexivity|].
      intros b Hb. rewrite !Hso by assumption. rewrite <- Hv. now apply Hle.
    + split; [exact Ha|]. split; [now apply Hso|].
      intros b Hb. rewrite Hso by assumption. rewrite <- Hv. now apply Hle.
Qed.

(** The constructor of [DoubleQLearning] on two models, with what it
    does to the schedules: two copies at the next two addresses, every
    older schedule left as it was. *)
Lemma DoubleQLearning_init_frame (m0 m1 : Model) (policy_ : Policy)
    (params_ : Params) (ap : AlgorithmParams) (l : nat) (fp : FitParams)
    (w : World) :
  algorithm_params params_ = Some ap ->
  p_learning_rate ap = Some l ->
  fit_params params_ = Some fp ->
  exists self w' prm,
    new_DoubleQLearning [m0; m1] policy_ params_ w = Ok (self, w') /\
    dq_ready self m0 m1 (next_loc w) (S (next_loc w)) (p_mdp_info params_)
      prm fp /\
    TD_str self w' = Ok ("DoubleQLearning"%string, w') /\
    forall k, (k < next_loc w)%nat -> schedules w' k = schedules w k.
Proof.
  intros Hap Hl Hfp.
  unfold new_DoubleQLearning, DoubleQLearning_init, TD_init, Agent_init,
    bind, getitem, getattr, ret, assert, raise, deepcopy_learning_rate,
    deepcopy.
  rewrite Hap, Hl. cbn.
  eexists. eexists. eexists. split; [reflexivity|]. cbn.
  split; [|split; [reflexivity|]].
  - unfold dq_ready. cbn. repeat split; try reflexivity; try assumption.
    lia.
  - intros k Hk.
    destruct (k =? S (next_loc w))%nat eqn:E1;
      [apply Nat.eqb_eq in E1; lia|].
    destruct (k =? next_loc w)%nat eqn:E2;
      [apply Nat.eqb_eq in E2; lia|reflexivity].
Qed.

(** Along a run of [DoubleQLearning.fit] calls no schedule but the two
    of the agent changes, and a model whose index no draw selected is
    the same at the end, as is its schedule. *)
Lemma DoubleQLearning_fits_frame (l0 l1 : nat) (mi : MDPInfo)
    (prm : Params) (fp : FitParams) (dss : list (list Transition)) :
  values (action_space mi) <> [] ->
  Forall (fun ds => ds <> []) dss ->
  forall (self : Agent (list Model)) (m0 m1 : Model) (w : World),
    dq_ready self m0 m1 l0 l1 mi prm fp ->
    exists self' n0 n1 cs w',
      DoubleQLearning_fits self dss w = Ok (self', w') /\
      dq_ready self' n0 n1 l0 l1 mi prm fp /\
      calls w' = cs ++ calls w /\
      (forall l, l <> l0 -> l <> l1 -> schedules w' l = schedules w l) /\
      (count_coins 0 cs = 0%nat ->
       n0 = m0 /\ schedules w' l0 = schedules w l0) /\
      (count_coins 1 cs = 0%nat ->
       n1 = m1 /\ schedules w' l1 = schedules w l1).
Proof.
  intros Hne Hds. induction Hds as [|ds dss Hd _ IH]; intros self m0 m1 w Hr.
  - exists self, m0, m1, [], w. cbn.
    split; [reflexivity|]. split; [exact Hr|]. repeat split; auto.
  - destruct (exists_last Hd) as (ds' & t & ->).
    destruct (DoubleQLearning_fit_spec self m0 m1 l0 l1 mi prm fp ds' t w Hr
                (or_intror Hne))
      as (a_n & w1 & E & _ & Hcalls & _ & Hoth & _).
    cbn zeta in E, Hcalls, Hoth.
    set (u := fst (uniform (rng w))) in *.
    set (idx := coin u) in *.
    cbn [DoubleQLearning_fits]. erewrite bind_ok by exact E.
    destruct Hr as (Hapx & Hlr & Hl & Hmi & Hprm & Hfp).
    match type of Hcalls with
    | _ = CFit ?i ?sa ?q :: CRate ?l ?sa' :: ?mid ++ ?p :: ?c :: _ =>
        set (first := CFit i sa q :: CRate l sa' :: mid ++ [p; c]);
        pose proof (count_one_fit 0 l0 idx l sa q u mid
                      (mid_calls_are_predictions _ _ _ _ _ _))
          as (_ & _ & C0);
        pose proof (count_one_fit 1 l1 idx l sa q u mid
                      (mid_calls_are_predictions _ _ _ _ _ _))
          as (_ & _ & C1);
        set (qv := q) in *
    end.
    fold first in C0, C1. fold idx in C0, C1.
    assert (Hc1 : calls w1 = first ++ calls w).
    { rewrite Hcalls. subst first. cbn. now rewrite <- app_assoc. }
    destruct (coin_cases u) as [Ec|Ec]; fold idx in Ec; rewrite Ec in *;
      unfold pick in E, Hoth; cbn [Z.eqb Pos.eqb] in E, Hoth, C0, C1.
    + match type of E with
      | _ = Ok (?s1, _) =>
          destruct (IH s1 (model_fit m0 (state t, action t) qv fp) m1 w1)
            as (self' & n0 & n1 & cs & w' & E' & Hr' & Hc' & Hf & H0 & H1)
      end.
      { repeat split; auto. }
      exists self', n0, n1, (cs ++ first), w'.
      split; [exact E'|]. split; [exact Hr'|].
      split; [rewrite Hc', Hc1; now rewrite app_assoc|].
      split; [|split].
      * intros l Ha Hb. rewrite Hf by assumption. now apply Hoth.
      * rewrite count_coins_app, C0. intros Hz. lia.
      * rewrite count_coins_app, C1. intros Hz.
        destruct H1 as [-> Hs]; [lia|]. split; [reflexivity|].
        rewrite Hs. apply Hoth. auto.
    + match type of E with
      | _ = Ok (?s1, _) =>
          destruct (IH s1 m0 (model_fit m1 (state t, action t) qv fp) w1)
            as (self' & n0 & n1 & cs & w' & E' & Hr' & Hc' & Hf & H0 & H1)
      end.
      { repeat split; auto. }
      exists self', n0, n1, (cs ++ first), w'.
      split; [exact E'|]. split; [exact Hr'|].
      split; [rewrite Hc', Hc1; now rewrite app_assoc|].
      split; [|split].
      * intros l Ha Hb. rewrite Hf by assumption. now apply Hoth.
      * rewrite count_coins_app, C0. intros Hz.
        destruct H0 as [-> Hs]; [lia|]. split; [reflexivity|].
        rewrite Hs. apply Hoth. auto.
      * rewrite count_coins_app, C1. intros Hz. lia.
Qed.

(** X7.  Take a [DoubleQLearning] agent as its constructor leaves it,
    with a non-empty action set, and any run of [fit] calls on
    non-empty datasets.  The run returns; no schedule other than the two
    of the agent is changed; and a model whose index was selected by no
    draw of the run has the parameters it had before the run, and its
    schedule the state it had. *)
Theorem DoubleQLearning_run_frame :
  forall (self : Agent (list Model)) (m0 m1 : Model) (l0 l1 : nat)
         (mi : MDPInfo) (prm : Params) (fp : FitParams)
         (dss : list (list Transition)) (w : World),
    dq_ready self m0 m1 l0 l1 mi prm fp ->
    values (action_space mi) <> [] ->
    Forall (fun ds => ds <> []) dss ->
    exists self' n0 n1 cs w',
      DoubleQLearning_fits self dss w = Ok (self', w') /\
      approximator self' = Some [n0; n1] /\
      learning_rate self' = learning_rate self /\
      calls w' = cs ++ calls w /\
      (forall l, l <> l0 -> l <> l1 -> schedules w' l = schedules w l) /\
      (count_coins 0 cs = 0%nat ->
       n0 = m0 /\ schedules w' l0 = schedules w l0) /\
      (count_coins 1 cs = 0%nat ->
       n1 = m1 /\ schedules w' l1 = schedules w l1).
Proof.
  intros self m0 m1 l0 l1 mi prm fp dss w Hr Hne Hds.
  destruct (DoubleQLearning_fits_frame l0 l1 mi prm fp dss Hne Hds
              self m0 m1 w Hr)
    as (self' & n0 & n1 & cs & w' & E & Hr' & Hc & Hf & H0 & H1).
  exists self', n0, n1, cs, w'. split; [exact E|].
  destruct Hr as (_ & Hlr & _). destruct Hr' as (Hapx' & Hlr' & _).
  split; [exact Hapx'|]. split; [now rewrite Hlr, Hlr'|].
  repeat split; auto; try apply H0; try apply H1; auto.
Qed.

(** X8.  [DoubleQLearning] works on copies of the schedule it is given.
    With a schedule at an address [l] already in use, fit options in
    [params] and a non-empty action set, the constructor accepts two
    models, and after any run of [fit] calls on non-empty datasets the
    schedule at [l] is in the state it had before the agent was built:
    no [fit] ever advances it. *)
Theorem DoubleQLearning_never_advances_given_schedule :
  forall (m0 m1 : Model) (policy_ : Policy) (params_ : Params)
         (ap : AlgorithmParams) (l : nat) (fp : FitParams) (w0 : World),
    algorithm_params params_ = Some ap ->
    p_learning_rate ap = Some l ->
    fit_params params_ = Some fp ->
    values (action_space (p_mdp_info params_)) <> [] ->
    (l < next_loc w0)%nat ->
    exists self w,
      new_DoubleQLearning [m0; m1] policy_ params_ w0 = Ok (self, w) /\
      TD_str self w = Ok ("DoubleQLearning"%string, w) /\
      forall dss,
        Forall (fun ds => ds <> []) dss ->
        exists self' w',
          DoubleQLearning_fits self dss w = Ok (self', w') /\
          schedules w' l = schedules w0 l.
Proof.
  intros m0 m1 pol prm ap l fp w0 Hap Hl Hfp Hne Hlt.
  destruct (DoubleQLearning_init_frame m0 m1 pol prm ap l fp w0 Hap Hl Hfp)
    as (self & w & prm' & E & Hr & Hstr & Hold).
  exists self, w. split; [exact E|]. split; [exact Hstr|].
  intros dss Hds.
  destruct (DoubleQLearning_fits_frame _ _ _ prm' fp dss Hne Hds
              self m0 m1 w Hr)
    as (self' & n0 & n1 & cs & w' & E' & _ & _ & Hf & _).
  exists self', w'. split; [exact E'|].
  rewrite Hf by lia. apply Hold. exact Hlt.
Qed.

(** X15.  A [CollectMaxQ] callback that watches the approximator of a
    [QLearning] agent at a state, over the actions of the agent's action
    space, records exactly the bootstrap value [QLearning._next_q]
    computes for that state: when [_next_q] returns [v], one invocation
    of the callback appends [v] to its log and leaves the world as
    [_next_q] does; when [_next_q] raises, the callback raises the same
    exception.  Both ask [max_QA] the same question. *)
Theorem CollectMaxQ_records_QLearning_bootstrap :
  forall (self : Agent Model) (cb : CollectMaxQ) (m : Model)
         (mi : MDPInfo) (ns : State) (w : World),
    approximator self = Some m ->
    mdp_info self = Some mi ->
    _approximator cb = m ->
    _state cb = ns ->
    _action_values cb = values (action_space mi) ->
    match QLearning_next_q self ns w with
    | Ok ((v, self'), w1) =>
        self' = self /\
        exists cb',
          CollectMaxQ_call cb w = Ok (cb', w1) /\
          get_values cb' = get_values cb ++ [v] /\
          _approximator cb' = m
    | Raise e => CollectMaxQ_call cb w = Raise e
    end.
Proof.
  intros self cb m mi ns w Hapx Hmi Hm Hs Ha.
  unfold QLearning_next_q, CollectMaxQ_call.
  rewrite (bind_ok _ _ _ _ _ (getattr_some _ _ _ Hapx)).
  rewrite (bind_ok _ _ _ _ _ (getattr_some _ _ _ Hmi)).
  rewrite Hm, Hs, Ha. unfold bind.
  destruct (max_QA None ns false m (values (action_space mi)) w)
    as [[[v a] w1]|e]; [|reflexivity].
  unfold ret. split; [reflexivity|].
  eexists. split; [reflexivity|]. split; reflexivity.
Qed.

End Calls.

(** * The statements at concrete inputs *)

(** The tabular agent built by the constructor is as [dq_ready] says. *)
Lemma dq_start_ready (g : list R) :
  exists self w,
    dq_start g = Ok (self, w) /\
    rng w = g /\ calls w = [] /\
    self = dq_agent /\
    @dq_ready Tabular self left_model right_model 1 2 two_actions
      popped_params tt.
Proof.
  unfold dq_start, new_DoubleQLearning, DoubleQLearning_init, TD_init,
    Agent_init, bind, getattr, getitem, ret, assert,
    deepcopy_learning_rate, deepcopy.
  cbn. eexists. eexists. split; [reflexivity|]. cbn.
  split; [reflexivity|]. split; [reflexivity|]. split; [reflexivity|].
  repeat split. discriminate.
Qed.

(** C6, counterexample.  A [DoubleQLearning] agent is built on the two
    tables and [fit] is called on a transition that is not absorbing,
    with the draw [0.3], which selects index 0.  The call asks model 1,
    the one that was not selected, for its prediction at
    [(next_state, 0)]: not every call is on the selected index. *)
Lemma DoubleQLearning_fit_asks_other_model :
  exists self w self' w',
    dq_start [0.3] = Ok (self, w) /\
    @DoubleQLearning_fit Tabular self [plain_step] 1 w = Ok (self', w') /\
    coin (fst (@uniform Tabular (rng w))) = 0%Z /\
    In (@CPredict Tabular (Some 1%Z) (1%nat, 0%nat)) (calls w') /\
    ~ Forall (@on_selected_only Tabular 0 1) (calls w').
Proof.
  destruct (dq_start_ready [0.3]) as (self & w & E & Hg & Hc & _ & Hr).
  exists self, w.
  destruct (@DoubleQLearning_fit_spec Tabular self _ _ _ _ _ _ _ [] plain_step
              w Hr) as (a_n & w' & Efit & Hmax & Hcalls & _).
  { right. discriminate. }
  cbn zeta in Efit, Hmax, Hcalls. rewrite Hg in *.
  cbn [uniform Tabular hd fst] in *.
  assert (Hcoin : coin 0.3 = 0%Z).
  { unfold coin. destruct (Rlt_dec 0.3 0.5); [reflexivity|lra]. }
  rewrite Hcoin in *.
  eexists. exists w'. split; [exact E|]. split; [exact Efit|].
  split; [reflexivity|].
  destruct (Hmax eq_refl) as (v & Hin & Hv & Hle).
  assert (Ha : a_n = 0%nat).
  { cbn in Hin. destruct Hin as [<-|[<-|[]]]; [reflexivity|].
    exfalso. specialize (Hle 0%nat (or_introl eq_refl)).
    rewrite Hv in Hle. cbn in Hle. lra. }
  subst a_n. rewrite Hcalls.
  split.
  - right. right. left. reflexivity.
  - intros HF. inversion HF as [|? ? _ HF1]; subst.
    inversion HF1 as [|? ? _ HF2]; subst.
    inversion HF2 as [|? ? H3 _]; subst.
    cbn in H3. discriminate.
Qed.

(** C1 at the tabular instance: the state is an array of floats, and
    the subscript of [self._sigma] is refused at the first action. *)
Lemma WeightedQLearning_next_q_raises_in_loop_witness :
  mdp_info (wq_agent true) = Some two_actions /\
  approximator (wq_agent true) = Some left_model /\
  _sigma (wq_agent true)
  = Some (@np_scale Tabular (@np_ones Tabular (2%nat, 2%nat)) 1e10) /\
  @values Tabular (action_space two_actions) = [0%nat; 1%nat] /\
  (exists e, (e = IndexError \/ e = ValueError) /\
             @WeightedQLearning_next_q Tabular (wq_agent true) 1%nat
               (some_world [1; -1; 1; -1])
             = Raise e) /\
  @WeightedQLearning_next_q Tabular (wq_agent true) 1%nat
    (some_world [1; -1; 1; -1])
  = Raise IndexError /\
  bind (@new_WeightedQLearning Tabular left_model (fun _ => 0%nat)
          some_params)
    (fun self => @WeightedQLearning_next_q Tabular self 1%nat)
    (some_world [1; -1; 1; -1])
  = Raise AttributeError.
Proof.
  split; [reflexivity|]. split; [reflexivity|]. split; [reflexivity|].
  split; [reflexivity|].
  destruct (@WeightedQLearning_next_q_raises_in_loop Tabular) as [H0 H].
  split; [|split; [reflexivity|]].
  - exact (H (wq_agent true) two_actions left_model _ 0%nat [1%nat] 1%nat
             (some_world [1; -1; 1; -1]) eq_refl eq_refl eq_refl eq_refl).
  - exact (H0 left_model (fun _ => 0%nat) some_params 1%nat
             (some_world [1; -1; 1; -1])).
Defined.

(** C9 at the tabular instance: with [sampling] disabled the resolver
    and [fit] raise [IndexError], not [NotImplementedError]. *)
Lemma WeightedQLearning_no_sampling_raises_in_loop_witness :
  sampling (wq_agent false) = Some false /\
  mdp_info (wq_agent false) = Some two_actions /\
  approximator (wq_agent false) = Some left_model /\
  _sigma (wq_agent false)
  = Some (@np_scale Tabular (@np_ones Tabular (2%nat, 2%nat)) 1e10) /\
  @values Tabular (action_space two_actions) = [0%nat; 1%nat] /\
  absorbing plain_step = false /\
  (exists e, (e = IndexError \/ e = ValueError) /\
             @WeightedQLearning_fit Tabular (wq_agent false) [plain_step] 1
               (some_world [])
             = Raise e) /\
  @WeightedQLearning_next_q Tabular (wq_agent false) 1%nat (some_world [])
  = Raise IndexError /\
  @WeightedQLearning_fit Tabular (wq_agent false) [plain_step] 1
    (some_world [])
  = Raise IndexError /\
  p_sampling no_sampling_params = Some false /\
  bind (@new_WeightedQLearning Tabular left_model (fun _ => 0%nat)
          no_sampling_params)
    (fun self => @WeightedQLearning_next_q Tabular self 1%nat)
    (some_world [])
  = Raise AttributeError.
Proof.
  split; [reflexivity|]. split; [reflexivity|]. split; [reflexivity|].
  split; [reflexivity|]. split; [reflexivity|]. split; [reflexivity|].
  destruct (@WeightedQLearning_no_sampling_raises_in_loop Tabular) as [H0 H].
  split; [|split; [reflexivity|split; [reflexivity|split; [reflexivity|]]]].
  - destruct (H (wq_agent false) two_actions left_model _ eq_refl eq_refl
                eq_refl eq_refl) as [H1 _].
    destruct (H1 0%nat [1%nat] eq_refl) as [_ H2].
    exact (H2 [] plain_step (some_world []) eq_refl).
  - exact (H0 left_model (fun _ => 0%nat) no_sampling_params 1%nat
             (some_world []) eq_refl).
Defined.

(** C2 at the tabular instance: [fit] on the absorbing transition of
    the end-to-end example raises [IndexError]. *)
Lemma WeightedQLearning_fit_raises_at_statistics_witness :
  approximator (wq_agent true) = Some left_model /\
  learning_rate (wq_agent true) = Some (LRone 0) /\
  mdp_info (wq_agent true) = Some two_actions /\
  (0 < @cols Tabular (@np_zeros Tabular (2%nat, 2%nat)))%nat /\
  absorbing absorbing_step = true /\
  @state_index Tabular (state absorbing_step) = None /\
  @WeightedQLearning_fit Tabular (wq_agent true) [absorbing_step] 1
    (some_world [])
  = Raise IndexError /\
  (forall r, @WeightedQLearning_fit Tabular (wq_agent true) [plain_step] 1
               (some_world [])
             <> Ok r) /\
  bind (@new_WeightedQLearning Tabular left_model (fun _ => 0%nat)
          some_params)
    (fun self => @WeightedQLearning_fit Tabular self [absorbing_step] 1)
    (some_world [])
  = Raise AttributeError.
Proof.
  split; [reflexivity|]. split; [reflexivity|]. split; [reflexivity|].
  split; [cbn; lia|]. split; [reflexivity|]. split; [reflexivity|].
  destruct (@WeightedQLearning_fit_raises_at_statistics Tabular)
    as (H0 & H1 & H).
  assert (Hc : (0 < @cols Tabular (@np_zeros Tabular (2%nat, 2%nat)))%nat)
    by (cbn; lia).
  split; [|split].
  - destruct (H (wq_agent true) [] absorbing_step left_model 0%nat
                two_actions _ tt _ _ (some_world []) eq_refl eq_refl eq_refl
                eq_refl eq_refl eq_refl eq_refl Hc eq_refl) as [_ H2].
    exact (H2 (or_introl eq_refl)).
  - intros r. apply H1. intros nu Hnu. inversion Hnu. exact Hc.
  - exact (H0 left_model (fun _ => 0%nat) some_params [absorbing_step]
             (some_world [])).
Defined.

(** With states held in arrays of integers the subscripts are accepted
    and the runs raise [ValueError]: [_next_q] when the two entries that
    [self._sigma[sa_n, a]] selects are stored in one slot, [fit] at the
    condition of line 160, after whole rows of [_n_updates] and [_Q2]
    were updated. *)
Lemma WeightedQLearning_accepted_subscripts :
  @WeightedQLearning_next_q TabularInt wq_agent_int 1%nat
    (some_world_int [1; -1; 1; -1])
  = Raise ValueError /\
  @WeightedQLearning_fit TabularInt wq_agent_int [absorbing_step_int] 1
    (some_world_int [])
  = Raise ValueError.
Proof.
  split; [reflexivity|].
  assert (Hc : (0 < @cols TabularInt (@np_zeros TabularInt (2%nat, 2%nat)))%nat)
    by (cbn; lia).
  exact (@WeightedQLearning_fit_absorbing_raises TabularInt wq_agent_int []
           absorbing_step_int left_model 0%nat _ _ tt _ _ (some_world_int [])
           eq_refl eq_refl eq_refl eq_refl eq_refl eq_refl eq_refl Hc
           eq_refl).
Qed.

(** C8 at the tabular instance: two tables are accepted, one is not. *)
Lemma DoubleQLearning_init_two_models_witness :
  algorithm_params some_params = Some (Build_AlgorithmParams (Some 0%nat)) /\
  p_learning_rate (Build_AlgorithmParams (Some 0%nat)) = Some 0%nat /\
  length [left_model; right_model] = 2%nat /\
  length [left_model] <> 2%nat /\
  (exists self w', dq_start [] = Ok (self, w') /\
                   approximator self = Some [left_model; right_model]) /\
  @new_DoubleQLearning Tabular [left_model] (fun _ => 0%nat) some_params
    (some_world [])
  = Raise AssertionError.
Proof.
  split; [reflexivity|]. split; [reflexivity|]. split; [reflexivity|].
  split; [discriminate|]. split.
  - destruct (@DoubleQLearning_init_two_models Tabular
                [left_model; right_model] (fun _ => 0%nat) some_params
                (Build_AlgorithmParams (Some 0%nat)) 0%nat (some_world [])
                eq_refl eq_refl) as [_ H].
    destruct (H eq_refl) as (self & w' & E & Ha & _).
    exists self, w'. split; [exact E|exact Ha].
  - apply (@DoubleQLearning_init_two_models Tabular
             [left_model] (fun _ => 0%nat) some_params
             (Build_AlgorithmParams (Some 0%nat)) 0%nat (some_world [])
             eq_refl eq_refl).
    discriminate.
Defined.

(** C4 at the tabular instance, model 0 selected *)
Lemma DoubleQLearning_next_q_cross_witness :
  approximator dq_agent = Some [left_model; right_model] /\
  mdp_info dq_agent = Some two_actions /\
  @values Tabular (action_space two_actions) <> [] /\
  (0 = 0 \/ 0 = 1)%Z /\
  exists v a w',
    @DoubleQLearning_next_q Tabular dq_agent 1%nat 0 (some_world [])
    = Ok (@predict Tabular right_model (1%nat, a), w') /\
    @is_max_at Tabular left_model 1%nat [0%nat; 1%nat] v a.
Proof.
  split; [reflexivity|]. split; [reflexivity|]. split; [discriminate|].
  split; [left; reflexivity|].
  destruct (@DoubleQLearning_next_q_cross Tabular dq_agent left_model
              right_model two_actions 1%nat 0%Z (some_world [])
              eq_refl eq_refl ltac:(discriminate) (or_introl eq_refl))
    as (v & a & E & Hmax).
  exists v, a. eexists. split; [exact E|exact Hmax].
Defined.

(** C7 at the tabular instance: the policy plays action 1, whose
    prediction is 0, while the largest prediction is 1. *)
Lemma SARSA_next_q_on_policy_witness :
  policy sarsa_agent = Some (fun _ : nat => 1%nat) /\
  approximator sarsa_agent = Some left_model /\
  exists w',
    @SARSA_next_q Tabular sarsa_agent 1%nat (some_world [])
    = Ok ((0, set_next_action sarsa_agent (Some 1%nat)), w').
Proof.
  split; [reflexivity|]. split; [reflexivity|].
  destruct (@SARSA_next_q_on_policy Tabular sarsa_agent (fun _ => 1%nat)
              left_model 1%nat (some_world []) eq_refl eq_refl)
    as (E & _).
  eexists. exact E.
Defined.

(** C3 at the end-to-end example of the spec: the absorbing transition
    [(s=0, a=1, reward=5)], step size 0.1 and a table of zeros give the
    fitted value [0.1 * 5]. *)
Lemma TD_fit_last_transition_witness :
  approximator q_agent = Some zero_model /\
  learning_rate q_agent = Some (LRone 0) /\
  mdp_info q_agent = Some two_actions /\
  params q_agent = Some popped_params /\
  fit_params popped_params = Some tt /\
  exists q w2,
    @QLearning_fit Tabular q_agent [absorbing_step] 1 (some_world [])
    = Ok (set_approximator q_agent
            (Some (table_fit zero_model (0%nat, 1%nat) q tt)), w2) /\
    q = 0.1 * 5.
Proof.
  split; [reflexivity|]. split; [reflexivity|]. split; [reflexivity|].
  split; [reflexivity|]. split; [reflexivity|].
  destruct (@TD_fit_last_transition Tabular (@QLearning_next_q Tabular)
              q_agent q_agent [] absorbing_step zero_model zero_model 0%nat
              two_actions popped_params tt 0 (some_world [])
              (@log Tabular (@CPredict Tabular None (0%nat, 1%nat))
                 (some_world []))
              eq_refl eq_refl eq_refl eq_refl eq_refl eq_refl eq_refl)
    as (w2 & E & _ & _ & Hq).
  eexists. exists w2. split; [exact E|].
  apply Hq; reflexivity.
Defined.

(** C10 at the tabular instance: two invocations, the table being
    [left_model] at the first and [right_model] at the second *)
Lemma CollectMaxQ_logs_max_witness :
  [0%nat; 1%nat] <> [] /\
  exists cb' w' vs,
    @CollectMaxQ_calls Tabular
      (@CollectMaxQ_init Tabular left_model 1%nat [0%nat; 1%nat])
      [left_model; right_model] (some_world [])
    = Ok (cb', w') /\
    get_values cb' = vs /\ length vs = 2%nat.
Proof.
  split; [discriminate|].
  destruct (@CollectMaxQ_logs_max Tabular left_model 1%nat [0%nat; 1%nat]
              ltac:(discriminate)) as (_ & _ & H).
  destruct (H [left_model; right_model]
              (@CollectMaxQ_init Tabular left_model 1%nat [0%nat; 1%nat])
              (some_world []) eq_refl eq_refl)
    as (cb' & cs & vs & E & _ & Hv & Hlen & _).
  exists cb'. eexists. exists vs. split; [exact E|].
  split; [exact Hv|exact Hlen].
Defined.

(** C6 (as amended) at the tabular instance: the draw 0.3 selects model
    0 and leaves the schedule of model 1 alone; the transition is not
    absorbing and the other model is asked for one prediction. *)
Lemma DoubleQLearning_fit_frame_witness :
  @dq_ready Tabular dq_agent left_model right_model 1 2 two_actions
    popped_params tt /\
  @values Tabular (action_space two_actions) <> [] /\
  exists self' w' new,
    @DoubleQLearning_fit Tabular dq_agent [plain_step] 1 (some_world [0.3])
    = Ok (self', w') /\
    calls w' = new ++ calls (some_world [0.3]) /\
    learning_rate self' = learning_rate dq_agent /\
    @count_predicts Tabular (1 - coin 0.3) new = 1%nat.
Proof.
  assert (Hr : @dq_ready Tabular dq_agent left_model right_model 1 2
                 two_actions popped_params tt).
  { repeat split. discriminate. }
  split; [exact Hr|]. split; [discriminate|].
  destruct (@DoubleQLearning_fit_frame Tabular dq_agent left_model
              right_model 1%nat 2%nat two_actions popped_params tt Hr
              ltac:(discriminate)) as (_ & _ & H & _).
  destruct (H [] plain_step (some_world [0.3]))
    as (self' & w' & new & m_sel & a_n & E & Hc & _ & Hlr & _ & _ & _ & _
        & _ & _ & _ & _ & Hcount & _).
  exists self', w', new. split; [exact E|]. split; [exact Hc|].
  split; [exact Hlr|exact Hcount].
Defined.

(** X1 at the tabular instance *)
Lemma fit_rejects_iterations_and_empty_dataset_witness :
  2%Z <> 1%Z /\
  @QLearning_fit Tabular q_agent [absorbing_step] 2 (some_world [])
  = Raise AssertionError /\
  @WeightedQLearning_fit Tabular (wq_agent true) [] 1 (some_world [])
  = Raise IndexError.
Proof.
  split; [discriminate|].
  destruct (@fit_rejects_iterations_and_empty_dataset Tabular)
    as (H & _ & _ & He).
  split; [|apply He].
  destruct (H 2%Z ltac:(discriminate)) as (Ht & _).
  apply Ht.
Defined.

(** X3 at the tabular instance *)
Lemma TD_fit_absorbing_ignores_resolver_witness :
  absorbing absorbing_step = true /\
  @SARSA_fit Tabular sarsa_agent [absorbing_step] 1 (some_world [])
  = @QLearning_fit Tabular sarsa_agent [absorbing_step] 1 (some_world []).
Proof.
  split; [reflexivity|].
  apply (@TD_fit_absorbing_ignores_resolver Tabular
           (@SARSA_next_q Tabular) (@QLearning_next_q Tabular) sarsa_agent
           [] absorbing_step 1 (some_world []) eq_refl).
Defined.

(** X4 at the tabular instance *)
Lemma constructors_need_learning_rate_witness :
  (algorithm_params no_params = None \/
   algorithm_params no_params = Some {| p_learning_rate := None |}) /\
  @new_DoubleQLearning Tabular [left_model] (fun _ => 0%nat) no_params
    (some_world [])
  = Raise KeyError.
Proof.
  split; [left; reflexivity|].
  apply (@constructors_need_learning_rate Tabular no_params
           (or_introl eq_refl)).
Defined.

(** X5 at the tabular instance *)
Lemma QLearning_SARSA_init_share_schedule_witness :
  algorithm_params some_params = Some (Build_AlgorithmParams (Some 0%nat)) /\
  p_learning_rate (Build_AlgorithmParams (Some 0%nat)) = Some 0%nat /\
  exists q,
    @new_QLearning Tabular zero_model (fun _ => 0%nat) some_params
      (some_world [])
    = Ok (q, some_world []) /\
    learning_rate q = Some (LRone 0).
Proof.
  split; [reflexivity|]. split; [reflexivity|].
  destruct (@QLearning_SARSA_init_share_schedule Tabular zero_model
              (fun _ => 0%nat) some_params
              (Build_AlgorithmParams (Some 0%nat)) 0%nat (some_world [])
              eq_refl eq_refl)
    as (q & s & Eq & _ & Hq & _).
  exists q. split; [exact Eq|exact Hq].
Defined.

(** X6 at the tabular instance *)
Lemma DoubleQLearning_next_q_below_max_witness :
  approximator dq_agent = Some [left_model; right_model] /\
  mdp_info dq_agent = Some two_actions /\
  @values Tabular (action_space two_actions) <> [] /\
  (0 = 0 \/ 0 = 1)%Z /\
  exists v w',
    @DoubleQLearning_next_q Tabular dq_agent 1%nat 0 (some_world [])
    = Ok (v, w') /\
    forall v' a',
      @is_max_at Tabular right_model 1%nat [0%nat; 1%nat] v' a' -> v <= v'.
Proof.
  split; [reflexivity|]. split; [reflexivity|]. split; [discriminate|].
  split; [left; reflexivity|].
  destruct (@DoubleQLearning_next_q_below_max Tabular dq_agent left_model
              right_model two_actions 1%nat 0%Z (some_world [])
              eq_refl eq_refl ltac:(discriminate) (or_introl eq_refl))
    as (v & w' & E & Hle & _).
  exists v, w'. split; [exact E|exact Hle].
Defined.

(** X7 at the tabular instance: one call with the draw 0.3 *)
Lemma DoubleQLearning_run_frame_witness :
  @dq_ready Tabular dq_agent left_model right_model 1 2 two_actions
    popped_params tt /\
  @values Tabular (action_space two_actions) <> [] /\
  Forall (fun ds : list (@Transition Tabular) => ds <> []) [[plain_step]] /\
  exists self' w',
    @DoubleQLearning_fits Tabular dq_agent [[plain_step]] (some_world [0.3])
    = Ok (self', w') /\
    learning_rate self' = learning_rate dq_agent.
Proof.
  assert (Hr : @dq_ready Tabular dq_agent left_model right_model 1 2
                 two_actions popped_params tt).
  { repeat split. discriminate. }
  assert (Hd : Forall (fun ds : list (@Transition Tabular) => ds <> [])
                 [[plain_step]]).
  { constructor; [discriminate|constructor]. }
  split; [exact Hr|]. split; [discriminate|]. split; [exact Hd|].
  destruct (@DoubleQLearning_run_frame Tabular dq_agent left_model
              right_model 1%nat 2%nat two_actions popped_params tt
              [[plain_step]] (some_world [0.3]) Hr ltac:(discriminate) Hd)
    as (self' & n0 & n1 & cs & w' & E & _ & Hlr & _).
  exists self', w'. split; [exact E|exact Hlr].
Defined.

(** X8 at the tabular instance: the schedule at address 0 *)
Lemma DoubleQLearning_never_advances_given_schedule_witness :
  algorithm_params some_params = Some (Build_AlgorithmParams (Some 0%nat)) /\
  p_learning_rate (Build_AlgorithmParams (Some 0%nat)) = Some 0%nat /\
  fit_params some_params = Some tt /\
  @values Tabular (action_space (p_mdp_info some_params)) <> [] /\
  (0 < @next_loc Tabular (some_world [0.3%R]))%nat /\
  exists self w,
    dq_start [0.3] = Ok (self, w) /\
    exists self' w',
      @DoubleQLearning_fits Tabular self [[plain_step]] w = Ok (self', w') /\
      schedules w' 0%nat = schedules (some_world [0.3]) 0%nat.
Proof.
  split; [reflexivity|]. split; [reflexivity|]. split; [reflexivity|].
  split; [discriminate|]. split; [apply Nat.lt_0_1|].
  destruct (@DoubleQLearning_never_advances_given_schedule Tabular
              left_model right_model (fun _ => 0%nat) some_params
              (Build_AlgorithmParams (Some 0%nat)) 0%nat tt
              (some_world [0.3]) eq_refl eq_refl eq_refl
              ltac:(discriminate) Nat.lt_0_1)
    as (self & w & E & _ & H).
  exists self, w. split; [exact E|].
  apply (H [[plain_step]]).
  constructor; [discriminate|constructor].
Defined.

(** X13 at the tabular instance: a transition that is not absorbing *)
Lemma QLearning_fit_returns_witness :
  approximator q_agent = Some zero_model /\
  learning_rate q_agent = Some (LRone 0) /\
  (absorbing plain_step = true \/
   @values Tabular (action_space two_actions) <> []) /\
  exists self' w',
    @QLearning_fit Tabular q_agent [plain_step] 1 (some_world [])
    = Ok (self', w').
Proof.
  split; [reflexivity|]. split; [reflexivity|].
  assert (Hne : absorbing plain_step = true \/
                @values Tabular (action_space two_actions) <> []).
  { right. discriminate. }
  split; [exact Hne|].
  destruct (@QLearning_fit_returns Tabular q_agent [] plain_step zero_model
              0%nat two_actions popped_params tt (some_world [])
              eq_refl eq_refl eq_refl eq_refl eq_refl Hne)
    as (q_next & w2 & E & _).
  eexists. exists w2. exact E.
Defined.

(** X14 at the tabular instance: a transition that is not absorbing *)
Lemma SARSA_fit_returns_witness :
  approximator sarsa_agent = Some left_model /\
  policy sarsa_agent = Some (fun _ : nat => 1%nat) /\
  exists self' w',
    @SARSA_fit Tabular sarsa_agent [plain_step] 1 (some_world [])
    = Ok (self', w') /\
    _next_action self' = Some 1%nat.
Proof.
  split; [reflexivity|]. split; [reflexivity|].
  destruct (@SARSA_fit_returns Tabular sarsa_agent [] plain_step left_model
              (fun _ => 1%nat) 0%nat two_actions popped_params tt
              (some_world []) eq_refl eq_refl eq_refl eq_refl eq_refl
              eq_refl)
    as (w2 & E).
  eexists. exists w2. split; [exact E|reflexivity].
Defined.

(** X15 at the tabular instance *)
Lemma CollectMaxQ_records_QLearning_bootstrap_witness :
  approximator q_agent = Some zero_model /\
  mdp_info q_agent = Some two_actions /\
  match @QLearning_next_q Tabular q_agent 1%nat (some_world []) with
  | Ok ((v, _), w1) =>
      exists cb',
        @CollectMaxQ_call Tabular
          (@CollectMaxQ_init Tabular zero_model 1%nat [0%nat; 1%nat])
          (some_world [])
        = Ok (cb', w1) /\
        get_values cb' = [v]
  | Raise e => False
  end.
Proof.
  split; [reflexivity|]. split; [reflexivity|].
  pose proof (@CollectMaxQ_records_QLearning_bootstrap Tabular q_agent
                (@CollectMaxQ_init Tabular zero_model 1%nat [0%nat; 1%nat])
                zero_model two_actions 1%nat (some_world [])
                eq_refl eq_refl eq_refl eq_refl eq_refl) as H.
  assert (Hne : @values Tabular (action_space two_actions) <> [])
    by discriminate.
  destruct (@max_QA_spec Tabular None 1%nat false zero_model
              (@values Tabular (action_space two_actions)) (some_world [])
              Hne) as (v & a & Emax & _).
  assert (Eq : exists w1,
            @QLearning_next_q Tabular q_agent 1%nat (some_world [])
            = Ok ((v, q_agent), w1)).
  { eexists. unfold QLearning_next_q.
    erewrite bind_ok by reflexivity. erewrite bind_ok by reflexivity.
    erewrite bind_ok by exact Emax. reflexivity. }
  destruct Eq as (w1 & Eq). rewrite Eq in H. rewrite Eq.
  destruct H as (_ & cb' & Ec & Hv & _). exists cb'. split; assumption.
Defined.
